(** * server.py: session registry, login and message routing

    A shallow embedding of [src/server.py].  The server keeps two
    module-level dictionaries, [registered_clients] and
    [active_connections]; every coroutine of the file is embedded as a
    function in a state-and-exception monad over these two dictionaries
    that also records what is written to the websockets and to stdout.

    Conventions.
    - A JSON value produced by [json.loads] is a [pyval]; a Python [dict]
      with string keys is an association list kept in insertion order and
      read by its first match.
    - The records of [registered_clients] are mutable objects.  The value
      stored in [active_connections] is a reference to such an object, not a
      copy; a reference is the key under which the object sits in
      [registered_clients], and reading through it is [deref].
    - A Python [str] is the string of the bytes of its UTF-8 encoding;
      [len] counts its code points ([py_len]), and indexing takes a whole
      code point.
    - [bleach.clean], [bcrypt.checkpw] and [str.encode] are library code;
      they are the fields of the class [Libraries].  What the source relies
      on of [bleach.clean] beyond its action on text, namely that it raises
      [TypeError] on a value that is not a string, is written out in
      [bleach_clean].
    - [websocket.send] appends to the output trace and returns; a frame read
      from a websocket is either a decoded JSON value or the exception that
      [recv]/[json.loads] raised. *)

From stdpp Require Import base option list strings gmap fin_maps.

Local Open Scope string_scope.
Local Open Scope list_scope.
#[local] Set Warnings "-register-all".

(** ** Python values *)

Inductive pyval :=
| VNone
| VBool (b : bool)
| VInt (z : Z)
| VFloat (literal : string)
| VStr (s : string)
| VList (l : list pyval)
| VDict (d : list (string * pyval)).

Inductive exn :=
| TypeError
| AttributeError
| KeyError
| IndexError
| JSONDecodeError
| ConnectionClosedOK
| ConnectionClosedError.

Inductive outcome (A : Type) :=
| Ok (a : A)
| Raise (e : exn).
Arguments Ok {A} a.
Arguments Raise {A} e.

#[export] Instance outcome_ret : MRet outcome := fun A a => Ok a.
#[export] Instance outcome_bind : MBind outcome := fun A B f m =>
  match m with
  | Ok a => f a
  | Raise e => Raise e
  end.

(** ** Dictionaries in insertion order *)

Section dict.
Context {V : Type}.

Fixpoint dict_get (d : list (string * V)) (k : string) : option V :=
  match d with
  | [] => None
  | (k', v) :: d' => if String.eqb k' k then Some v else dict_get d' k
  end.

Definition dict_in (k : string) (d : list (string * V)) : bool :=
  match dict_get d k with
  | Some _ => true
  | None => false
  end.

(** [d[k] = v]: an existing key keeps its position. *)
Fixpoint dict_set (d : list (string * V)) (k : string) (v : V)
  : list (string * V) :=
  match d with
  | [] => [(k, v)]
  | (k', v') :: d' =>
      if String.eqb k' k then (k', v) :: d' else (k', v') :: dict_set d' k v
  end.

(** [del d[k]] for a key that is present. *)
Fixpoint dict_del (d : list (string * V)) (k : string) : list (string * V) :=
  match d with
  | [] => []
  | (k', v') :: d' =>
      if String.eqb k' k then d' else (k', v') :: dict_del d' k
  end.

Definition dict_values (d : list (string * V)) : list V := map snd d.
Definition dict_keys (d : list (string * V)) : list string := map fst d.
End dict.

(** ** Operations of Python on JSON values *)

(** [v.get(k)] *)
Definition py_get (v : pyval) (k : string) : outcome pyval :=
  match v with
  | VDict d => Ok (default VNone (dict_get d k))
  | _ => Raise AttributeError
  end.

(** [v[k]] for a string [k] *)
Definition py_getitem_str (v : pyval) (k : string) : outcome pyval :=
  match v with
  | VDict d =>
      match dict_get d k with
      | Some x => Ok x
      | None => Raise KeyError
      end
  | _ => Raise TypeError
  end.

(** A byte [10xxxxxx], which continues a code point in UTF-8. *)
Definition is_continuation (c : Ascii.ascii) : bool :=
  match c with
  | Ascii.Ascii _ _ _ _ _ _ b6 b7 => b7 && negb b6
  end.

(** [len(s)]: the number of code points, one for every byte that does not
    continue another. *)
Fixpoint py_len (s : string) : nat :=
  match s with
  | EmptyString => 0
  | String c s' => (if is_continuation c then 0 else 1) + py_len s'
  end.

(** The bytes that continue the code point in front of [s]. *)
Fixpoint continuation (s : string) : string :=
  match s with
  | EmptyString => EmptyString
  | String c s' =>
      if is_continuation c then String c (continuation s') else EmptyString
  end.

(** [v[0]]; the keys of a decoded JSON object are strings, so [0] is never
    one of them.  The first item of a string is its first code point. *)
Definition py_getitem_0 (v : pyval) : outcome pyval :=
  match v with
  | VList [] => Raise IndexError
  | VList (x :: _) => Ok x
  | VStr EmptyString => Raise IndexError
  | VStr (String c s') => Ok (VStr (String c (continuation s')))
  | VDict _ => Raise KeyError
  | _ => Raise TypeError
  end.

(** [v == s] for a string literal [s] *)
Definition py_eq_str (v : pyval) (s : string) : bool :=
  match v with
  | VStr s' => String.eqb s' s
  | _ => false
  end.

(** [v in d] for a dictionary [d] with string keys: lists and dicts are
    unhashable. *)
Definition py_in {V} (v : pyval) (d : list (string * V)) : outcome bool :=
  match v with
  | VStr s => Ok (dict_in s d)
  | VList _ | VDict _ => Raise TypeError
  | _ => Ok false
  end.

(** Truth value of a string. *)
Definition str_truthy (s : string) : bool :=
  match s with
  | EmptyString => false
  | _ => true
  end.

(** ** Library code *)

Definition bytes := string.

Class Libraries := {
  (** [bleach.clean] on text *)
  sanitize : string -> string;
  (** [bcrypt.checkpw password hashed] *)
  checkpw : bytes -> bytes -> bool;
  (** [s.encode('utf-8')] *)
  encode_utf8 : string -> bytes
}.

(** ** Server state *)

Definition ws := nat.

(** One record of [registered_clients].  The keys ['websocket'] and
    ['publickey'] are absent until a login stores them. *)
Record user := User {
  u_nickname : string;
  u_jid : string;
  u_password : bytes;
  u_websocket : option ws;
  u_publickey : option pyval
}.

Definition set_websocket (w : ws) (u : user) : user :=
  User (u_nickname u) (u_jid u) (u_password u) (Some w) (u_publickey u).

Definition set_publickey (pk : pyval) (u : user) : user :=
  User (u_nickname u) (u_jid u) (u_password u) (u_websocket u) (Some pk).

(** A reference to a record of [registered_clients]. *)
Definition ref := string.

Record server := Server {
  registered_clients : gmap string user;
  active_connections : list (string * ref)
}.

Inductive effect :=
| Send (w : ws) (msg : pyval)
| Print (line : string).

(** ** The monad of the coroutines *)

Definition M (A : Type) : Type := server -> outcome A * server * list effect.

#[export] Instance M_ret : MRet M := fun A a st => (Ok a, st, []).
#[export] Instance M_bind : MBind M := fun A B f m st =>
  match m st with
  | (Ok a, st1, e1) =>
      match f a st1 with
      | (r, st2, e2) => (r, st2, e1 ++ e2)
      end
  | (Raise e, st1, e1) => (Raise e, st1, e1)
  end.

Definition lift {A} (o : outcome A) : M A := fun st => (o, st, []).
Definition emit (e : effect) : M unit := fun st => (Ok (), st, [e]).
Definition get_registered : M (gmap string user) :=
  fun st => (Ok (registered_clients st), st, []).
Definition get_active : M (list (string * ref)) :=
  fun st => (Ok (active_connections st), st, []).
Definition put_registered (rc : gmap string user) : M unit :=
  fun st => (Ok (), Server rc (active_connections st), []).
Definition put_active (ac : list (string * ref)) : M unit :=
  fun st => (Ok (), Server (registered_clients st) ac, []).

(** Reading the object a reference points to.  References are only ever
    made from keys of [registered_clients], which never loses a key (see
    [wf_server]); the second branch stands for the impossible dangling
    reference. *)
Definition deref (r : ref) : M user :=
  rc ← get_registered;
  match rc !! r with
  | Some u => mret u
  | None => lift (Raise KeyError)
  end.

(** [client_info['websocket']] *)
Definition get_websocket (u : user) : M ws :=
  match u_websocket u with
  | Some w => mret w
  | None => lift (Raise KeyError)
  end.

Fixpoint for_each {A} (f : A -> M unit) (l : list A) : M unit :=
  match l with
  | [] => mret ()
  | x :: l' => f x;; for_each f l'
  end.

Fixpoint collect {A B} (f : A -> M B) (l : list A) : M (list B) :=
  match l with
  | [] => mret []
  | x :: l' => y ← f x; ys ← collect f l'; mret (y :: ys)
  end.

(** ** The functions of server.py *)

Section server.
Context `{Libraries}.

(** [bleach.clean(v)]: text is cleaned, anything else is refused. *)
Definition bleach_clean (v : pyval) : outcome string :=
  match v with
  | VStr s => Ok (sanitize s)
  | _ => Raise TypeError
  end.

Definition verify_password (stored_hash : bytes) (provided_password : string)
  : bool :=
  checkpw (encode_utf8 provided_password) stored_hash.

Definition authenticate_user (jid password : string) : M bool :=
  rc ← get_registered;
  match rc !! jid with
  | Some user => mret (verify_password (u_password user) password)
  | None => mret false
  end.

Definition add_clients_to_active_connections
    (jid : string) (websocket : ws) (publickey : pyval) : M ref :=
  rc ← get_registered;
  match rc !! jid with
  | None => lift (Raise KeyError)
  | Some user =>
      put_registered (<[jid := set_websocket websocket user]> rc);;
      rc ← get_registered;
      put_registered (alter (set_publickey publickey) jid rc);;
      ac ← get_active;
      put_active (dict_set ac jid jid);;
      mret jid
  end.

Definition send_message (websocket : ws) (message : pyval) : M unit :=
  emit (Send websocket message).

Definition success_message (nickname : string) : pyval :=
  VDict [("tag", VStr "success");
         ("message", VStr "Login successful");
         ("nickname", VStr nickname)].

Definition send_login_success (websocket : ws) (user : ref) : M unit :=
  u ← deref user;
  send_message websocket (success_message (u_nickname u)).

Definition error_message (message : string) : pyval :=
  VDict [("tag", VStr "error"); ("message", VStr message)].

Definition send_error (websocket : ws) (message : string) : M unit :=
  send_message websocket (error_message message).

Definition broadcast (message : pyval) : M unit :=
  ac ← get_active;
  for_each (fun client_info =>
              u ← deref client_info;
              w ← get_websocket u;
              send_message w message)
           (dict_values ac).

Definition presence_entry (u : user) : pyval :=
  VDict [("nickname", VStr (u_nickname u));
         ("jid", VStr (u_jid u));
         ("publickey", default VNone (u_publickey u))].

Definition broadcast_presence : M unit :=
  ac ← get_active;
  entries ← collect (fun client_info =>
                       u ← deref client_info; mret (presence_entry u))
                    (dict_values ac);
  broadcast (VDict [("tag", VStr "presence"); ("presence", VList entries)]).

(** [jid] is [None] or a string. *)
Definition cleanup_user (jid : option string) : M unit :=
  ac ← get_active;
  match jid with
  | Some j =>
      if dict_in j ac then
        put_active (dict_del ac j);;
        broadcast_presence
      else mret ()
  | None => mret ()
  end.

Definition create_message_format (data : pyval) (tag : string)
  : outcome pyval :=
  from ← py_get data "from";
  to ← py_get data "to";
  info ← py_get data "info";
  let message := [("tag", VStr tag); ("from", from); ("to", to);
                  ("info", info)] in
  if String.eqb tag "file" then
    filename ← py_get data "filename";
    mret (VDict (dict_set message "filename" filename))
  else mret (VDict message).

Definition route_message (target_jid : pyval) (message : pyval) : M unit :=
  if py_eq_str target_jid "public" then broadcast message
  else
    ac ← get_active;
    known ← lift (py_in target_jid ac);
    if known : bool then
      match target_jid with
      | VStr t =>
          match dict_get ac t with
          | Some r =>
              u ← deref r;
              w ← get_websocket u;
              send_message w message
          | None => lift (Raise KeyError)
          end
      | _ => lift (Raise KeyError)
      end
    else emit (Print "Target client is not active").

Definition process_message (data : pyval) : M unit :=
  from ← lift (py_get data "from");
  ac ← get_active;
  active ← lift (py_in from ac);
  if active : bool then
    target_jid ← lift (py_get data "to");
    raw ← lift (py_get data "info");
    info ← lift (bleach_clean raw);
    tag ← lift (py_get data "tag");
    if py_eq_str tag "message" && str_truthy info then
      message_format ← lift (create_message_format data "message");
      route_message target_jid message_format
    else if py_eq_str tag "file" then
      file_message ← lift (create_message_format data "file");
      route_message target_jid file_message
    else emit (Print "Invalid or incomplete message format")
  else emit (Print "Sender is not active").

(** One iteration of [handle_messages]: [frame] is what the iteration
    over the websocket and [json.loads] deliver. *)
Definition handle_messages_step (frame : outcome pyval) : M unit :=
  data ← lift frame;
  process_message data.

(** [handle_messages] on the frames read until the peer closes. *)
Fixpoint handle_messages (frames : list (outcome pyval)) : M unit :=
  match frames with
  | [] => mret ()
  | frame :: rest => handle_messages_step frame;; handle_messages rest
  end.

(** [data['presence'][0].get(k)] *)
Definition login_field (data : pyval) (k : string) : outcome pyval :=
  presence ← py_getitem_str data "presence";
  first ← py_getitem_0 presence;
  py_get first k.

(** Lines 76-103 of [handle_client], after [jid] has been assigned; the
    result tells whether the handler goes on to [handle_messages]. *)
Definition handle_client_validate
    (websocket : ws) (data : pyval) (jid : string) : M bool :=
  raw_password ← lift (login_field data "password");
  password ← lift (bleach_clean raw_password);
  publickey ← lift (login_field data "publickey");
  if negb (str_truthy jid) then
    send_error websocket "* JID cannot be empty";; mret false
  else if Nat.ltb 64 (py_len jid) then
    send_error websocket "* JID should be less than 64 characters";;
    mret false
  else if String.eqb password "" then
    send_error websocket "* Password cannot be empty";; mret false
  else if Nat.ltb 64 (py_len password) then
    send_error websocket "* Password should be less than 64 characters";;
    mret false
  else
    ok ← authenticate_user jid password;
    if ok : bool then
      current_user ← add_clients_to_active_connections jid websocket publickey;
      send_login_success websocket current_user;;
      broadcast_presence;;
      mret true
    else
      send_error websocket "Incorrect email and password";; mret false.

(** The [try] block of [handle_client] up to the call of
    [handle_messages].  The first component is the local variable [jid]
    as the [finally] block will see it. *)
Definition handle_client_login
    (websocket : ws) (frame : outcome pyval) (st : server)
  : option string * (outcome bool * server * list effect) :=
  match frame with
  | Raise e => (None, (Raise e, st, []))
  | Ok data =>
      match login_field data "jid" ≫= bleach_clean with
      | Raise e => (None, (Raise e, st, []))
      | Ok jid => (Some jid, handle_client_validate websocket data jid st)
      end
  end.

(** [handle_client] for a connection that delivers [first] and then
    [rest] before it closes.  The [except] clause catches
    [ConnectionClosedError] and prints it, with a text the model does not
    carry; the [finally] block runs [cleanup_user] on every path.  What
    follows [cleanup_user] there, a pause and [attempt_reconnect], does not
    touch the two dictionaries: [attempt_reconnect] opens a connection to
    the server's own address, which is one more connection of the [world]
    below, and its call of [handle_client] with one argument fails at
    once. *)
Definition handle_client
    (websocket : ws) (first : outcome pyval) (rest : list (outcome pyval))
    (st : server) : outcome unit * server * list effect :=
  let '(jid, (r1, st1, e1)) := handle_client_login websocket first st in
  let '(r2, st2, e2) :=
    match r1 with
    | Ok true => handle_messages rest st1
    | Ok false => (Ok (), st1, [])
    | Raise e => (Raise e, st1, [])
    end in
  let caught :=
    match r2 with
    | Raise ConnectionClosedError => Ok ()
    | _ => r2
    end in
  let '(r3, st3, e3) := cleanup_user jid st2 in
  (match r3 with Ok _ => caught | Raise e => Raise e end, st3,
   e1 ++ e2 ++ e3).
End server.

(** ** Connections running side by side

    Each connection runs [handle_client] as a task of its own; control
    passes between tasks only at an [await].  A task is therefore cut at
    the points where it waits for a frame: the login segment, one iteration
    of the message loop, and the [finally] block that follows the segment
    which ends the [try]. *)

Inductive phase :=
| AwaitingLogin
| MessageLoop (jid : option string)
| Closed (jid : option string).

Record world := World {
  srv : server;
  conns : gmap ws phase
}.

Inductive event :=
| Connect (w : ws)
| Recv (w : ws) (frame : outcome pyval).

Section world.
Context `{Libraries}.

(** The [finally] block of [handle_client], with the value [jid] has
    there. *)
Definition handle_client_finally (jid : option string) (st : server)
  : server * list effect :=
  let '(_, st', e) := cleanup_user jid st in (st', e).

Definition step (wd : world) (ev : event) : world * list effect :=
  match ev with
  | Connect w =>
      match conns wd !! w with
      | None => (World (srv wd) (<[w := AwaitingLogin]> (conns wd)), [])
      | Some _ => (wd, [])
      end
  | Recv w frame =>
      match conns wd !! w with
      | Some AwaitingLogin =>
          let '(jid, (r, st1, e1)) :=
            handle_client_login w frame (srv wd) in
          match r with
          | Ok true =>
              (World st1 (<[w := MessageLoop jid]> (conns wd)), e1)
          | _ =>
              let '(st2, e2) := handle_client_finally jid st1 in
              (World st2 (<[w := Closed jid]> (conns wd)), e1 ++ e2)
          end
      | Some (MessageLoop jid) =>
          let '(r, st1, e1) := handle_messages_step frame (srv wd) in
          match r with
          | Ok _ => (World st1 (conns wd), e1)
          | Raise _ =>
              let '(st2, e2) := handle_client_finally jid st1 in
              (World st2 (<[w := Closed jid]> (conns wd)), e1 ++ e2)
          end
      | _ => (wd, [])
      end
  end.

Fixpoint run (wd : world) (evs : list event) : world * list effect :=
  match evs with
  | [] => (wd, [])
  | ev :: evs' =>
      let '(wd1, e1) := step wd ev in
      let '(wd2, e2) := run wd1 evs' in
      (wd2, e1 ++ e2)
  end.
End world.

(** ** Observations on states and traces *)

Section checks.
Context `{Libraries}.

(** The message a rejected login is answered with, by the checks of
    [handle_client] in their order; [None] when every check passes. *)
Definition rejection (st : server) (jid password : string)
  : option string :=
  if negb (str_truthy jid) then Some "* JID cannot be empty"
  else if Nat.ltb 64 (py_len jid)
  then Some "* JID should be less than 64 characters"
  else if String.eqb password "" then Some "* Password cannot be empty"
  else if Nat.ltb 64 (py_len password)
  then Some "* Password should be less than 64 characters"
  else match registered_clients st !! jid with
       | Some user =>
           if verify_password (u_password user) password then None
           else Some "Incorrect email and password"
       | None => Some "Incorrect email and password"
       end.

End checks.

(** [lookup] of the session registry: the record a registered identity
    points to. *)
Definition lookup_session (st : server) (jid : string) : option user :=
  r ← dict_get (active_connections st) jid;
  registered_clients st !! r.

Definition is_send (e : effect) : bool :=
  match e with
  | Send _ _ => true
  | Print _ => false
  end.

Definition sends (es : list effect) : list effect := filter is_send es.

(** The websocket stored in the record a reference points to. *)
Definition channel_of (st : server) (r : ref) : option ws :=
  registered_clients st !! r ≫= u_websocket.

(** The channels of the active sessions, in the order of iteration. *)
Definition channels (st : server) : list ws :=
  omap (channel_of st) (dict_values (active_connections st)).

(** The state a login of [jid] on [w] with public key [pk] leaves, for [u]
    the record of [jid] before it. *)
Definition logged_in (st : server) (jid : string) (u : user) (w : ws)
    (pk : pyval) : server :=
  Server (<[jid := set_publickey pk (set_websocket w u)]>
            (registered_clients st))
         (dict_set (active_connections st) jid jid).

(** What every state the server reaches satisfies: the registry has one
    entry per key, the entry of [j] refers to the record of [j], and that
    record carries a websocket. *)
Definition wf_server (st : server) : Prop :=
  NoDup (dict_keys (active_connections st)) ∧
  ∀ j r, (j, r) ∈ active_connections st →
         r = j ∧ ∃ u, registered_clients st !! r = Some u
                      ∧ is_Some (u_websocket u).

(** The fields of a credential record that a login leaves alone. *)
Definition same_credentials (u u' : user) : Prop :=
  u_nickname u' = u_nickname u ∧ u_jid u' = u_jid u
  ∧ u_password u' = u_password u.

(** [rc'] has the keys of [rc], and under each of them a record with the
    nickname, jid and password hash it has in [rc]. *)
Definition credentials_kept (rc rc' : gmap string user) : Prop :=
  ∀ k, match rc !! k, rc' !! k with
       | Some u, Some u' => same_credentials u u'
       | None, None => True
       | _, _ => False
       end.

(** ** The data of the source, and libraries to run it with *)

Definition registered_clients_0 : gmap string user :=
  list_to_map
    [("c1@s5", User "pemba" "c1@s5"
        "$2b$12$qWoDtedvx8jurr/2XVex7.raoa7tqIofxPYrx1.oy6qmDpHavkYwa"
        None None);
     ("c2@s5", User "saurab" "c2@s5"
        "$2b$12$suJThyymiIVez4nLyUjpPurPq/E3BBTRdDGMnxADdbIjdst5kbKvS"
        None None);
     ("c3@s5", User "roshan" "c3@s5"
        "$2b$12$Cz8bUuhzYyoHMdbvZLlcs.Cc0nOSR3VzAHOFrnF3ic6unrxZ6rwoG"
        None None);
     ("c4@s5", User "bidur" "c4@s5"
        "$2b$12$FwNWm33zvTOFtK6yrUXW0uMrMdu9jGR9AY7RgKgcm0sEzWjbhquOK"
        None None);
     ("test1@s5", User "test1" "test1@s5"
        "$2b$12$JMN7bSNLOQw9CvefBs79rOsQYefOhnFfxt1zzKVsiKF1tw7ha5URG"
        None None);
     ("test2@s5", User "test2" "test2@s5"
        "$2b$12$rFzKEMeiJISlYvU1CMzSg.8ZdUn3vbfKtBRBmjQuJ3vpQV5zOY12u"
        None None)].

(** The server as the module leaves it when loaded. *)
Definition server_0 : server := Server registered_clients_0 [].

Definition world_0 : world := World server_0 ∅.

(** A stand-in for [bleach.clean] on text without tags the library lets
    through: the three characters of markup are escaped. *)
Fixpoint escape_markup (s : string) : string :=
  match s with
  | EmptyString => EmptyString
  | String c s' =>
      let c := String c EmptyString in
      (if String.eqb c "&" then "&amp;"
       else if String.eqb c "<" then "&lt;"
       else if String.eqb c ">" then "&gt;"
       else c) +:+ escape_markup s'
  end.

(** A stand-in for [bcrypt.checkpw]: a table of the passwords that two of
    the stored hashes accept. *)
Definition password_table : list (bytes * bytes) :=
  [("pemba-pw",
    "$2b$12$qWoDtedvx8jurr/2XVex7.raoa7tqIofxPYrx1.oy6qmDpHavkYwa");
   ("saurab-pw",
    "$2b$12$suJThyymiIVez4nLyUjpPurPq/E3BBTRdDGMnxADdbIjdst5kbKvS")].

Definition table_checkpw (password hashed : bytes) : bool :=
  existsb (fun e => String.eqb (fst e) password && String.eqb (snd e) hashed)
          password_table.

Definition demo_libraries : Libraries :=
  {| sanitize := escape_markup;
     checkpw := table_checkpw;
     encode_utf8 := fun s => s |}.

(** A login frame [{"presence": [{"jid": j, "password": p, "publickey": k}]}]. *)
Definition login_frame (j p : string) (k : pyval) : pyval :=
  VDict [("presence",
          VList [VDict [("jid", VStr j); ("password", VStr p);
                         ("publickey", k)]])].

(** A chat envelope [{"tag": t, "from": f, "to": d, "info": i}]. *)
Definition envelope (t f d i : string) : pyval :=
  VDict [("tag", VStr t); ("from", VStr f); ("to", VStr d); ("info", VStr i)].

(** ** States and frames to run the server on *)

(** Connection 1 has logged in as [c1@s5]. *)
Definition world_1 : world :=
  (@run demo_libraries world_0
     [Connect 1;
      Recv 1 (Ok (login_frame "c1@s5" "pemba-pw" (VStr "K1")))]).1.

(** Connections 1 and 2 have logged in as [c1@s5] and [c2@s5]. *)
Definition world_2 : world :=
  (@run demo_libraries world_1
     [Connect 2;
      Recv 2 (Ok (login_frame "c2@s5" "saurab-pw" (VStr "K2")))]).1.

Definition evil : string := "an <script>evil()</script> example".

Definition hello : pyval := envelope "message" "c2@s5" "public" "hello".

Definition user_2 : user :=
  User "saurab" "c2@s5"
       "$2b$12$suJThyymiIVez4nLyUjpPurPq/E3BBTRdDGMnxADdbIjdst5kbKvS"
       (Some 2) (Some (VStr "K2")).

Definition file_envelope : list (string * pyval) :=
  [("tag", VStr "file"); ("from", VStr "c2@s5"); ("to", VStr "c1@s5");
   ("info", VStr ""); ("filename", VStr "notes.txt")].

Definition no_info_envelope : list (string * pyval) :=
  [("tag", VStr "message"); ("from", VStr "c2@s5"); ("to", VStr "c1@s5")].

(** A login frame that also names a display name of its own. *)
Definition login_with_nickname : pyval :=
  VDict [("presence",
          VList [VDict [("jid", VStr "c1@s5"); ("password", VStr "pemba-pw");
                         ("publickey", VStr "K1");
                         ("nickname", VStr "root")]])].

Definition user_1 : user :=
  User "pemba" "c1@s5"
       "$2b$12$qWoDtedvx8jurr/2XVex7.raoa7tqIofxPYrx1.oy6qmDpHavkYwa"
       (Some 1) (Some (VStr "K1")).

Definition user_3 : user :=
  User "roshan" "c3@s5"
       "$2b$12$Cz8bUuhzYyoHMdbvZLlcs.Cc0nOSR3VzAHOFrnF3ic6unrxZ6rwoG"
       None None.

(** A login as [c1@s5] with a password the stored hash refuses. *)
Definition wrong_login : pyval := login_frame "c1@s5" "guess" VNone.

Definition direct_envelope : list (string * pyval) :=
  [("tag", VStr "message"); ("from", VStr "c2@s5"); ("to", VStr "c1@s5");
   ("info", VStr "hi"); ("colour", VStr "red")].

(** An envelope whose [to] is a JSON array. *)
Definition list_target_envelope : list (string * pyval) :=
  [("tag", VStr "message"); ("from", VStr "c2@s5");
   ("to", VList [VStr "c1@s5"]); ("info", VStr "hi")].

(** A file envelope without the key [info]. *)
Definition file_without_info : list (string * pyval) :=
  [("tag", VStr "file"); ("from", VStr "c2@s5"); ("to", VStr "c1@s5");
   ("filename", VStr "notes.txt")].

(** Forty times the character U+65E5, three bytes each in UTF-8. *)
Definition forty_characters : string :=
  "日日日日日日日日日日日日日日日日日日日日日日日日日日日日日日日日日日日日日日日日".

(** Sixty-five letters. *)
Definition sixty_five_letters : string :=
  "aaaaaaaaaaaaaaaaaaaaaaaaaaaaaaaaaaaaaaaaaaaaaaaaaaaaaaaaaaaaaaaaa".

(** The [from] of a frame is the identity of an active session. *)
Definition sender_active (st : server) (data : pyval) : bool :=
  match py_get data "from" with
  | Ok (VStr f) => dict_in f (active_connections st)
  | _ => false
  end.

(** The list a presence push carries: one entry per session, in the order
    of the registry. *)
Definition roster (st : server) : list pyval :=
  omap (λ r, presence_entry <$> registered_clients st !! r)
       (dict_values (active_connections st)).

Definition presence_message (st : server) : pyval :=
  VDict [("tag", VStr "presence"); ("presence", VList (roster st))].

(** The state with the registry entry of [j] deleted. *)
Definition removed (st : server) (j : string) : server :=
  Server (registered_clients st) (dict_del (active_connections st) j).

(** An effect of the message loop: a line on stdout, or a record with tag
    [message] or [file] on a websocket. *)
Definition is_relay (e : effect) : bool :=
  match e with
  | Print _ => true
  | Send _ (VDict (("tag", VStr t) :: _)) =>
      String.eqb t "message" || String.eqb t "file"
  | Send _ _ => false
  end.

(** * Properties *)

(** Unfolding the monad. *)
Ltac munfold :=
  unfold mbind, M_bind, mret, M_ret, outcome_bind, outcome_ret, lift, emit,
    get_registered, get_active, put_registered, put_active in *.

Section properties.
Context `{Libraries}.

(** ** Equations of the monad *)

Lemma bind_run {A B} (m : M A) (f : A → M B) (st : server) :
  (m ≫= f) st
  = match m st with
    | (Ok a, st1, e1) =>
        let '(r, st2, e2) := f a st1 in (r, st2, e1 ++ e2)
    | (Raise e, st1, e1) => (Raise e, st1, e1)
    end.
Proof. reflexivity. Qed.

Lemma bind_lift {A B} (o : outcome A) (f : A → M B) (st : server) :
  (lift o ≫= f) st
  = match o with
    | Ok a => f a st
    | Raise e => (Raise e, st, [])
    end.
Proof.
  munfold. destruct o as [a|e]; [|reflexivity].
  by destruct (f a st) as [[r st'] eff].
Qed.

Lemma bind_ret {A B} (a : A) (f : A → M B) (st : server) :
  (mret a ≫= f) st = f a st.
Proof. munfold. by destruct (f a st) as [[r st'] eff]. Qed.

Lemma bind_get_active {B} (f : list (string * ref) → M B) (st : server) :
  (get_active ≫= f) st = f (active_connections st) st.
Proof.
  munfold. by destruct (f (active_connections st) st) as [[r st'] eff].
Qed.

Lemma bind_get_registered {B} (f : gmap string user → M B) (st : server) :
  (get_registered ≫= f) st = f (registered_clients st) st.
Proof.
  munfold. by destruct (f (registered_clients st) st) as [[r st'] eff].
Qed.

Lemma bind_emit {B} (e : effect) (f : unit → M B) (st : server) :
  (emit e ≫= f) st
  = let '(r, st', eff) := f () st in (r, st', e :: eff).
Proof. munfold. by destruct (f () st) as [[r st'] eff]. Qed.

Lemma bind_put_registered {B} (rc : gmap string user) (f : unit → M B)
    (st : server) :
  (put_registered rc ≫= f) st = f () (Server rc (active_connections st)).
Proof.
  munfold.
  by destruct (f () (Server rc (active_connections st))) as [[r st'] eff].
Qed.

Lemma bind_put_active {B} (ac : list (string * ref)) (f : unit → M B)
    (st : server) :
  (put_active ac ≫= f) st = f () (Server (registered_clients st) ac).
Proof.
  munfold.
  by destruct (f () (Server (registered_clients st) ac)) as [[r st'] eff].
Qed.

Lemma bind_assoc {A B C} (m : M A) (f : A → M B) (g : B → M C)
    (st : server) :
  ((m ≫= f) ≫= g) st = (m ≫= (λ a, f a ≫= g)) st.
Proof.
  munfold. destruct (m st) as [[[a|e] st1] e1]; [|reflexivity].
  destruct (f a st1) as [[[b|e] st2] e2]; [|reflexivity].
  destruct (g b st2) as [[r st3] e3]. by rewrite app_assoc.
Qed.

(** ** The authenticator *)

Lemma authenticate_user_run (jid password : string) (st : server) :
  authenticate_user jid password st
  = (Ok (match registered_clients st !! jid with
         | Some user => verify_password (u_password user) password
         | None => false
         end), st, []).
Proof.
  unfold authenticate_user. rewrite bind_get_registered.
  by destruct (registered_clients st !! jid).
Qed.

(** C4. [authenticate_user] returns a boolean, changes no state and writes
    nothing.  The boolean is [False] for an identity that is not in
    [registered_clients]; for one that is, it is what the password check
    says of the supplied password against the stored hash, so [True] for a
    password that verifies and [False] for one that does not. *)
Theorem authenticate_user_spec (jid password : string) (st : server) :
  ∃ b : bool,
    authenticate_user jid password st = (Ok b, st, [])
    ∧ (registered_clients st !! jid = None → b = false)
    ∧ (∀ user, registered_clients st !! jid = Some user →
               b = checkpw (encode_utf8 password) (u_password user)).
Proof.
  rewrite authenticate_user_run.
  destruct (registered_clients st !! jid) as [user|]; eexists;
    (split; [reflexivity|]); split; try done.
  by intros user' [= <-].
Qed.

(** ** Sending to one session and to all *)

Lemma deref_spec (r : ref) (st : server) :
  deref r st
  = match registered_clients st !! r with
    | Some u => (Ok u, st, [])
    | None => (Raise KeyError, st, [])
    end.
Proof.
  unfold deref. rewrite bind_get_registered.
  by destruct (registered_clients st !! r).
Qed.

Lemma send_to_spec (message : pyval) (r : ref) (st : server) :
  (u ← deref r; w ← get_websocket u; send_message w message) st
  = match channel_of st r with
    | Some w => (Ok (), st, [Send w message])
    | None => (Raise KeyError, st, [])
    end.
Proof.
  unfold deref, channel_of. rewrite bind_assoc, bind_get_registered.
  destruct (registered_clients st !! r) as [u|]; simpl.
  - rewrite bind_ret. unfold get_websocket.
    destruct (u_websocket u) as [w|]; simpl.
    + by rewrite bind_ret.
    + by rewrite bind_lift.
  - by rewrite bind_lift.
Qed.

Lemma broadcast_loop_frame (message : pyval) (l : list ref) (st : server) :
  ∃ r targets,
    for_each (λ client_info,
                u ← deref client_info;
                w ← get_websocket u;
                send_message w message) l st
    = (r, st, map (λ w, Send w message) targets).
Proof.
  induction l as [|x l IH]; simpl.
  - by exists (Ok ()), [].
  - unfold mbind at 1, M_bind at 1. rewrite send_to_spec.
    destruct (channel_of st x) as [w|].
    + destruct IH as (r & targets & ->). by exists r, (w :: targets).
    + by exists (Raise KeyError), [].
Qed.

Lemma broadcast_loop_all (message : pyval) (l : list ref) (st : server) :
  Forall (λ r, is_Some (channel_of st r)) l →
  for_each (λ client_info,
              u ← deref client_info;
              w ← get_websocket u;
              send_message w message) l st
  = (Ok (), st, map (λ w, Send w message) (omap (channel_of st) l)).
Proof.
  induction 1 as [|x l [w Hw] _ IH]; simpl; [done|].
  unfold mbind at 1, M_bind at 1. rewrite send_to_spec, Hw, IH.
  reflexivity.
Qed.

(** [broadcast] only sends [message], and changes nothing. *)
Lemma broadcast_frame (message : pyval) (st : server) :
  ∃ r targets,
    broadcast message st = (r, st, map (λ w, Send w message) targets).
Proof.
  unfold broadcast. rewrite bind_get_active. apply broadcast_loop_frame.
Qed.

Lemma wf_channels (st : server) :
  wf_server st →
  Forall (λ r, is_Some (channel_of st r))
         (dict_values (active_connections st)).
Proof.
  intros [_ Hwf]. unfold dict_values. rewrite Forall_map.
  apply Forall_forall. intros [j r] Hin.
  destruct (Hwf j r Hin) as (_ & u & Hu & Hws).
  unfold channel_of. simpl. by rewrite Hu.
Qed.

(** In a well-formed state [broadcast] reaches the channel of every
    session, in the order of the registry. *)
Lemma broadcast_spec (message : pyval) (st : server) :
  wf_server st →
  broadcast message st
  = (Ok (), st, map (λ w, Send w message) (channels st)).
Proof.
  intros Hwf. unfold broadcast. rewrite bind_get_active.
  by apply broadcast_loop_all, wf_channels.
Qed.

Lemma sends_map_send (message : pyval) (targets : list ws) :
  sends (map (λ w, Send w message) targets)
  = map (λ w, Send w message) targets.
Proof.
  unfold sends. induction targets as [|w l IH]; [done|].
  simpl. rewrite filter_cons. simpl. by rewrite IH.
Qed.

(** [route_message] changes nothing, and what it writes is [message] on
    websockets or the line for an inactive target. *)
Lemma route_message_frame (target_jid message : pyval) (st : server) :
  ∃ r eff,
    route_message target_jid message st = (r, st, eff)
    ∧ ((∃ targets, eff = map (λ w, Send w message) targets)
       ∨ eff = [Print "Target client is not active"]).
Proof.
  unfold route_message.
  destruct (py_eq_str target_jid "public").
  { destruct (broadcast_frame message st) as (r & targets & ->).
    exists r, (map (λ w, Send w message) targets). eauto. }
  rewrite bind_get_active, bind_lift.
  destruct (py_in target_jid (active_connections st)) as [[|]|e].
  - destruct target_jid as [| | | |t| |];
      try (exists (Raise KeyError), []; split;
           [reflexivity | left; by exists []]).
    destruct (dict_get (active_connections st) t) as [r|].
    + rewrite send_to_spec. destruct (channel_of st r) as [w|].
      * exists (Ok ()), [Send w message]. split; [done|left; by exists [w]].
      * exists (Raise KeyError), []. split; [done|left; by exists []].
    + exists (Raise KeyError), []. split; [done|left; by exists []].
  - exists (Ok ()), [Print "Target client is not active"]. eauto.
  - exists (Raise e), []. split; [done|left; by exists []].
Qed.

Lemma py_eq_str_true (v : pyval) (s : string) :
  py_eq_str v s = true ↔ v = VStr s.
Proof.
  destruct v; simpl; try (split; [discriminate | congruence]).
  rewrite String.eqb_eq. split; congruence.
Qed.

Lemma py_eq_str_false (v : pyval) (s : string) :
  py_eq_str v s = false ↔ v ≠ VStr s.
Proof.
  rewrite <- py_eq_str_true. destruct (py_eq_str v s); split; congruence.
Qed.

Lemma dict_get_elem {V} (d : list (string * V)) (k : string) (v : V) :
  dict_get d k = Some v → (k, v) ∈ d.
Proof.
  induction d as [|[k' v'] d IH]; simpl; [done|].
  destruct (String.eqb_spec k' k) as [->|Hne].
  - intros [= ->]. apply list_elem_of_here.
  - intros Hd. apply list_elem_of_further. by apply IH.
Qed.

(** C5. In a state the server can be in, [route_message] decides by the
    target: [public] sends the message on the channel of every active
    session, whoever sent it, and so on the sender's own; the identity of
    an active session sends it on that session's channel and on no other;
    anything else sends it nowhere, and nothing at all is sent, so the
    sender hears of no failure. *)
Theorem route_message_spec (message : pyval) (st : server)
    (Hwf : wf_server st) :
  (route_message (VStr "public") message st
   = (Ok (), st, map (λ w, Send w message) (channels st))
   ∧ ∀ j u, lookup_session st j = Some u →
            ∃ w, u_websocket u = Some w
                 ∧ Send w message
                   ∈ map (λ w, Send w message) (channels st))
  ∧ (∀ t u w, t ≠ "public" → lookup_session st t = Some u →
              u_websocket u = Some w →
              route_message (VStr t) message st
              = (Ok (), st, [Send w message]))
  ∧ (∀ target, target ≠ VStr "public" →
               (∀ t, target = VStr t →
                     dict_in t (active_connections st) = false) →
               ∃ r eff, route_message target message st = (r, st, eff)
                        ∧ sends eff = []).
Proof.
  split; [split|split].
  - unfold route_message. simpl. by apply broadcast_spec.
  - intros j u Hlook. unfold lookup_session in Hlook.
    destruct (dict_get (active_connections st) j) as [r|] eqn:Hr;
      [|discriminate].
    simpl in Hlook. apply dict_get_elem in Hr.
    destruct Hwf as [_ Hwf].
    destruct (Hwf j r Hr) as (_ & u' & Hu' & w & Hw).
    assert (u' = u) as -> by congruence.
    exists w. split; [done|].
    apply list_elem_of_fmap. exists w. split; [done|].
    unfold channels. apply list_elem_of_omap. exists r. split.
    + unfold dict_values. apply list_elem_of_fmap. by exists (j, r).
    + unfold channel_of. by rewrite Hu'.
  - intros t u w Hne Hlook Hw. unfold route_message. simpl.
    apply String.eqb_neq in Hne. rewrite Hne.
    rewrite bind_get_active, bind_lift. simpl.
    unfold lookup_session in Hlook.
    destruct (dict_get (active_connections st) t) as [r|] eqn:Hr;
      [|discriminate].
    simpl in Hlook. unfold dict_in. rewrite Hr.
    rewrite send_to_spec. unfold channel_of. rewrite Hlook. simpl.
    by rewrite Hw.
  - intros target Hne Hinactive. unfold route_message.
    apply py_eq_str_false in Hne. rewrite Hne.
    rewrite bind_get_active, bind_lift.
    destruct target as [| | | |t| |]; simpl;
      try (by exists (Ok ()), [Print "Target client is not active"]);
      try (by exists (Raise TypeError), []).
    rewrite (Hinactive t eq_refl).
    by exists (Ok ()), [Print "Target client is not active"].
Qed.

(** ** The presence push *)

Lemma presence_entries_frame (l : list ref) (st : server) :
  ∃ r, collect (λ client_info,
                  u ← deref client_info; mret (presence_entry u)) l st
       = (r, st, []).
Proof.
  induction l as [|x l [r IH]]; simpl; [by eexists|].
  rewrite (bind_assoc (B:=pyval)), bind_run, deref_spec.
  destruct (registered_clients st !! x) as [u|]; [|by eexists].
  rewrite bind_ret, bind_run, IH. destruct r; by eexists.
Qed.

(** [broadcast_presence] changes nothing and only sends. *)
Lemma broadcast_presence_frame (st : server) :
  ∃ r eff, broadcast_presence st = (r, st, eff) ∧ sends eff = eff.
Proof.
  unfold broadcast_presence. rewrite bind_get_active, bind_run.
  destruct (presence_entries_frame
              (dict_values (active_connections st)) st) as [[entries|e] ->].
  - destruct (broadcast_frame
                (VDict [("tag", VStr "presence");
                        ("presence", VList entries)]) st)
      as (r & targets & ->).
    eexists _, _. split; [reflexivity|]. apply sends_map_send.
  - by exists (Raise e), [].
Qed.

(** ** Processing of an envelope *)

Lemma py_in_inactive (st : server) (d : list (string * pyval)) :
  sender_active st (VDict d) = false →
  py_in (default VNone (dict_get d "from")) (active_connections st)
  = Ok false
  ∨ py_in (default VNone (dict_get d "from")) (active_connections st)
    = Raise TypeError.
Proof.
  unfold sender_active, py_get, py_in.
  destruct (default VNone (dict_get d "from")); intros Hs; auto.
  left. by rewrite Hs.
Qed.

(** C7. An envelope whose [from] is not the identity of an active session
    is not forwarded: nothing is sent on any websocket and the state, the
    session registry included, is as before. *)
Theorem process_message_inactive_sender (data : pyval) (st : server)
    (Hsender : sender_active st data = false) :
  ∃ r eff, process_message data st = (r, st, eff) ∧ sends eff = [].
Proof.
  destruct data as [| | | | |l|d];
    try (exists (Raise AttributeError), []; split; reflexivity).
  unfold process_message. munfold. simpl.
  destruct (py_in_inactive st d Hsender) as [-> | ->].
  - exists (Ok ()), [Print "Sender is not active"]. split; reflexivity.
  - exists (Raise TypeError), []. split; reflexivity.
Qed.

(** What [process_message] does with an envelope of an active sender
    whose [info] is text: the test is made on the cleaned text, the record
    is built from the envelope. *)
Lemma process_message_active (d : list (string * pyval)) (f i : string)
    (st : server) :
  dict_get d "from" = Some (VStr f) →
  dict_in f (active_connections st) = true →
  dict_get d "info" = Some (VStr i) →
  process_message (VDict d) st
  = let tag := default VNone (dict_get d "tag") in
    let to := default VNone (dict_get d "to") in
    if py_eq_str tag "message" && str_truthy (sanitize i) then
      route_message to
        (VDict [("tag", VStr "message"); ("from", VStr f); ("to", to);
                ("info", VStr i)]) st
    else if py_eq_str tag "file" then
      route_message to
        (VDict [("tag", VStr "file"); ("from", VStr f); ("to", to);
                ("info", VStr i);
                ("filename", default VNone (dict_get d "filename"))]) st
    else (Ok (), st, [Print "Invalid or incomplete message format"]).
Proof.
  intros Hfrom Hact Hinfo. unfold process_message.
  rewrite bind_lift. simpl. rewrite bind_get_active, bind_lift.
  rewrite Hfrom. simpl. rewrite Hact.
  rewrite bind_lift. simpl. rewrite bind_lift, Hinfo. simpl.
  rewrite !bind_lift. simpl.
  unfold create_message_format. simpl. rewrite Hfrom, Hinfo. simpl.
  destruct (py_eq_str (default VNone (dict_get d "tag")) "message"
            && str_truthy (sanitize i)).
  - by rewrite bind_lift.
  - destruct (py_eq_str (default VNone (dict_get d "tag")) "file");
      [by rewrite bind_lift | reflexivity].
Qed.

(** The ways [process_message] can go: it raises before writing
    anything, or refuses the sender, or has an active sender and a
    textual [info] in hand. *)
Lemma process_message_cases (data : pyval) (st : server) :
  (∃ e, process_message data st = (Raise e, st, []))
  ∨ process_message data st = (Ok (), st, [Print "Sender is not active"])
  ∨ ∃ d f i, data = VDict d ∧ dict_get d "from" = Some (VStr f)
             ∧ dict_in f (active_connections st) = true
             ∧ dict_get d "info" = Some (VStr i).
Proof.
  destruct data as [| | | | | |d]; try (left; by exists AttributeError).
  unfold process_message.
  rewrite bind_lift. simpl. rewrite bind_get_active, bind_lift.
  destruct (dict_get d "from") as [from|] eqn:Hfrom; simpl;
    [|by right; left].
  destruct from as [| | | |f| |]; simpl;
    try (by right; left); try (left; by exists TypeError).
  destruct (dict_in f (active_connections st)) eqn:Hact; [|by right; left].
  rewrite bind_lift. simpl. rewrite bind_lift.
  destruct (dict_get d "info") as [[| | | |i| |]|] eqn:Hi; simpl;
    try (rewrite bind_lift; left; by exists TypeError).
  right; right. by exists d, f, i.
Qed.

(** C10. An envelope of an active sender without the key [info] makes
    [process_message] raise [TypeError] from [bleach.clean], before any
    branch is taken, with nothing sent or printed; and whenever
    [process_message] prints the line of the discard branch, the envelope
    has an [info] that is text. *)
Theorem process_message_missing_info (d : list (string * pyval))
    (f : string) (st : server)
    (Hfrom : dict_get d "from" = Some (VStr f))
    (Hactive : dict_in f (active_connections st) = true)
    (Hinfo : dict_get d "info" = None) :
  process_message (VDict d) st = (Raise TypeError, st, [])
  ∧ ∀ data st0 r st' eff,
      process_message data st0 = (r, st', eff) →
      Print "Invalid or incomplete message format" ∈ eff →
      ∃ d' i, data = VDict d' ∧ dict_get d' "info" = Some (VStr i).
Proof.
  split.
  - unfold process_message.
    rewrite bind_lift. simpl. rewrite bind_get_active, bind_lift.
    rewrite Hfrom. simpl. rewrite Hactive.
    rewrite bind_lift. simpl. rewrite bind_lift, Hinfo. simpl.
    by rewrite bind_lift.
  - intros data st0 r st' eff Hrun Hin.
    destruct (process_message_cases data st0)
      as [[e He] | [He | (d' & f' & i & -> & _ & _ & Hi)]].
    + rewrite He in Hrun. inversion Hrun; subst. by apply elem_of_nil in Hin.
    + rewrite He in Hrun. inversion Hrun; subst.
      apply list_elem_of_singleton in Hin. discriminate.
    + by exists d', i.
Qed.

(** ** Login *)

Lemma add_clients_spec (jid : string) (w : ws) (pk : pyval) (st : server) :
  add_clients_to_active_connections jid w pk st
  = match registered_clients st !! jid with
    | Some u => (Ok jid, logged_in st jid u w pk, [])
    | None => (Raise KeyError, st, [])
    end.
Proof.
  unfold add_clients_to_active_connections.
  rewrite bind_get_registered.
  destruct (registered_clients st !! jid) as [u|]; [|reflexivity].
  rewrite bind_put_registered, bind_get_registered. simpl.
  rewrite bind_put_registered, bind_get_active. simpl.
  rewrite bind_put_active. simpl.
  unfold logged_in. by rewrite alter_insert_eq.
Qed.

Lemma login_field_other (data : pyval) (k k' : string) (v : pyval) :
  login_field data k = Ok v → ∃ v', login_field data k' = Ok v'.
Proof.
  unfold login_field. munfold.
  destruct (py_getitem_str data "presence") as [presence|]; [|done].
  destruct (py_getitem_0 presence) as [first|]; [|done].
  destruct first; try done. simpl. eauto.
Qed.

Lemma send_login_success_spec (w : ws) (r : ref) (st : server) :
  send_login_success w r st
  = match registered_clients st !! r with
    | Some u => (Ok (), st, [Send w (success_message (u_nickname u))])
    | None => (Raise KeyError, st, [])
    end.
Proof.
  unfold send_login_success, deref.
  rewrite (bind_assoc (B:=user)), bind_get_registered.
  destruct (registered_clients st !! r) as [u|].
  - by rewrite bind_ret.
  - by rewrite bind_lift.
Qed.

Lemma send_error_spec (w : ws) (message : string) (st : server) :
  (send_error w message;; mret false) st
  = (Ok false, st, [Send w (error_message message)]).
Proof. reflexivity. Qed.

Lemma rejection_None (st : server) (jid password : string) :
  rejection st jid password = None →
  ∃ u, registered_clients st !! jid = Some u
       ∧ verify_password (u_password u) password = true.
Proof.
  unfold rejection.
  repeat (match goal with |- context [if ?b then _ else _] => destruct b end;
          try done).
  destruct (registered_clients st !! jid) as [u|]; [|done].
  destruct (verify_password (u_password u) password) eqn:Hv; [|done].
  eauto.
Qed.

(** [handle_client_validate] when the password is text: a rejected login
    is answered with one error and changes nothing; an accepted one
    stores the session, answers with the stored nickname and pushes the
    presence. *)
Lemma handle_client_validate_spec (w : ws) (data : pyval)
    (jid p : string) (pk : pyval) (st : server) :
  login_field data "password" = Ok (VStr p) →
  login_field data "publickey" = Ok pk →
  handle_client_validate w data jid st
  = match rejection st jid (sanitize p) with
    | Some message => (Ok false, st, [Send w (error_message message)])
    | None =>
        match registered_clients st !! jid with
        | Some u =>
            let '(r, st', eff) :=
              broadcast_presence (logged_in st jid u w pk) in
            (match r with Ok _ => Ok true | Raise e => Raise e end, st',
             Send w (success_message (u_nickname u)) :: eff)
        | None => (Raise KeyError, st, [])
        end
    end.
Proof.
  intros Hp Hpk. unfold handle_client_validate, rejection.
  rewrite bind_lift, Hp, bind_lift. simpl. rewrite bind_lift, Hpk.
  destruct (negb (str_truthy jid)); [apply send_error_spec|].
  destruct (Nat.ltb 64 (py_len jid)); [apply send_error_spec|].
  destruct (String.eqb (sanitize p) ""); [apply send_error_spec|].
  destruct (Nat.ltb 64 (py_len (sanitize p)));
    [apply send_error_spec|].
  unfold mbind at 1, M_bind at 1. rewrite authenticate_user_run.
  destruct (registered_clients st !! jid) as [u|] eqn:Hu;
    [|apply send_error_spec].
  unfold verify_password.
  destruct (checkpw (encode_utf8 (sanitize p)) (u_password u));
    [|apply send_error_spec].
  unfold mbind at 1, M_bind at 1. rewrite add_clients_spec, Hu.
  unfold mbind at 1, M_bind at 1. rewrite send_login_success_spec.
  simpl. rewrite lookup_insert_eq. simpl.
  unfold mbind, M_bind.
  destruct (broadcast_presence (logged_in st jid u w pk))
    as [[[[]|e] st'] eff]; [|reflexivity].
  unfold mret, M_ret. by rewrite app_nil_r.
Qed.

Lemma dict_get_set_eq {V} (d : list (string * V)) (k : string) (v : V) :
  dict_get (dict_set d k v) k = Some v.
Proof.
  induction d as [|[k' v'] d IH]; simpl.
  - by rewrite String.eqb_refl.
  - destruct (String.eqb k' k) eqn:Hk; simpl; by rewrite Hk.
Qed.

Lemma dict_get_set_ne {V} (d : list (string * V)) (k k0 : string) (v : V) :
  k ≠ k0 → dict_get (dict_set d k v) k0 = dict_get d k0.
Proof.
  intros Hne. induction d as [|[k' v'] d IH]; simpl.
  - apply String.eqb_neq in Hne. by rewrite Hne.
  - destruct (String.eqb_spec k' k) as [->|Hk]; simpl.
    + apply String.eqb_neq in Hne. by rewrite Hne.
    + by rewrite IH.
Qed.

Lemma dict_get_del_ne {V} (d : list (string * V)) (k k0 : string) :
  k ≠ k0 → dict_get (dict_del d k) k0 = dict_get d k0.
Proof.
  intros Hne. induction d as [|[k' v'] d IH]; simpl; [done|].
  destruct (String.eqb_spec k' k) as [->|Hk]; simpl.
  - apply String.eqb_neq in Hne. by rewrite Hne.
  - by rewrite IH.
Qed.

(** What the login segment does to the state: nothing, unless it
    registers a session, and then it answers with the nickname that was
    stored for the identity. *)
Lemma handle_client_login_cases (w : ws) (frame : outcome pyval)
    (st : server) (jid : option string) (r : outcome bool) (st' : server)
    (eff : list effect) :
  handle_client_login w frame st = (jid, (r, st', eff)) →
  (st' = st ∧ r ≠ Ok true)
  ∨ ∃ j u pk eff',
      jid = Some j ∧ registered_clients st !! j = Some u
      ∧ st' = logged_in st j u w pk
      ∧ eff = Send w (success_message (u_nickname u)) :: eff'
      ∧ ∃ r0, broadcast_presence (logged_in st j u w pk) = (r0, st', eff')
              ∧ r = match r0 with Ok _ => Ok true | Raise e => Raise e end.
Proof.
  unfold handle_client_login.
  destruct frame as [data|e]; [|intros [= <- <- <- <-]; by left].
  destruct (login_field data "jid") as [raw|e] eqn:Hraw; simpl;
    [|intros [= <- <- <- <-]; by left].
  destruct (bleach_clean raw) as [j|e]; simpl;
    [|intros [= <- <- <- <-]; by left].
  destruct (login_field_other data "jid" "publickey" raw Hraw) as [pk Hpk].
  destruct (login_field data "password") as [rawp|e] eqn:Hp.
  - destruct rawp as [| | | |p| |];
      try (unfold handle_client_validate; rewrite bind_lift, Hp, bind_lift;
           simpl; intros [= <- <- <- <-]; by left).
    rewrite (handle_client_validate_spec w data j p pk st Hp Hpk).
    destruct (rejection st j (sanitize p)) as [message|] eqn:Hrej.
    { intros [= <- <- <- <-]; by left. }
    destruct (rejection_None st j (sanitize p) Hrej) as (u & Hu & _).
    rewrite Hu.
    destruct (broadcast_presence_frame (logged_in st j u w pk))
      as (r0 & eff0 & Hpush & _).
    rewrite Hpush. intros [= <- <- <- <-]. right.
    exists j, u, pk, eff0. repeat split; try done. by exists r0.
  - unfold handle_client_validate. rewrite bind_lift, Hp.
    intros [= <- <- <- <-]; by left.
Qed.


(** C9, as the code has it.  With a textual jid and password in the login
    frame, the cleaned values are checked in the order: jid empty, jid
    of more than 64 characters, password empty, password of more than 64
    characters, authentication, a character being a code point as [len]
    counts them; the first check that fails ends the login with exactly
    one error reply and an unchanged state.  The four validation messages
    start with an asterisk and a space: [* JID cannot be empty],
    [* JID should be less than 64 characters], [* Password cannot be
    empty], [* Password should be less than 64 characters]; the
    authentication failure is [Incorrect email and password]. *)
Theorem login_rejections (w : ws) (data : pyval) (j p : string)
    (st : server)
    (Hjid : login_field data "jid" = Ok (VStr j))
    (Hpassword : login_field data "password" = Ok (VStr p)) :
  let jid := sanitize j in
  let password := sanitize p in
  let reply message :=
    (Some jid, (Ok false, st, [Send w (error_message message)])) in
  (jid = "" →
   handle_client_login w (Ok data) st = reply "* JID cannot be empty")
  ∧ (jid ≠ "" → (64 < py_len jid)%nat →
     handle_client_login w (Ok data) st
     = reply "* JID should be less than 64 characters")
  ∧ (jid ≠ "" → (py_len jid ≤ 64)%nat → password = "" →
     handle_client_login w (Ok data) st
     = reply "* Password cannot be empty")
  ∧ (jid ≠ "" → (py_len jid ≤ 64)%nat → password ≠ "" →
     (64 < py_len password)%nat →
     handle_client_login w (Ok data) st
     = reply "* Password should be less than 64 characters")
  ∧ (jid ≠ "" → (py_len jid ≤ 64)%nat → password ≠ "" →
     (py_len password ≤ 64)%nat →
     authenticate_user jid password st = (Ok false, st, []) →
     handle_client_login w (Ok data) st
     = reply "Incorrect email and password").
Proof.
  intros jid password reply.
  destruct (login_field_other data "jid" "publickey" _ Hjid) as [pk Hpk].
  assert (handle_client_login w (Ok data) st
          = (Some jid,
             match rejection st jid password with
             | Some message =>
                 (Ok false, st, [Send w (error_message message)])
             | None =>
                 match registered_clients st !! jid with
                 | Some u =>
                     let '(r, st', eff) :=
                       broadcast_presence (logged_in st jid u w pk) in
                     (match r with Ok _ => Ok true | Raise e => Raise e end,
                      st', Send w (success_message (u_nickname u)) :: eff)
                 | None => (Raise KeyError, st, [])
                 end
             end)) as ->.
  { unfold handle_client_login. rewrite Hjid. simpl.
    by rewrite (handle_client_validate_spec w data _ p pk st Hpassword Hpk). }
  unfold rejection, reply.
  assert (∀ s, s ≠ "" → negb (str_truthy s) = false) as Hne.
  { intros s Hs. destruct s; [done|reflexivity]. }
  assert (∀ n, (n ≤ 64)%nat → Nat.ltb 64 n = false) as Hle.
  { intros n Hn. by apply Nat.ltb_ge. }
  assert (∀ n, (64 < n)%nat → Nat.ltb 64 n = true) as Hgt.
  { intros n Hn. by apply Nat.ltb_lt. }
  assert (∀ s, s ≠ "" → String.eqb s "" = false) as Hnb.
  { intros s Hs. by apply String.eqb_neq. }
  repeat split.
  - intros ->. reflexivity.
  - intros H1 H2. by rewrite Hne, Hgt.
  - intros H1 H2 H3. rewrite Hne, Hle by done. by rewrite H3.
  - intros H1 H2 H3 H4. by rewrite Hne, Hle, Hnb, Hgt.
  - intros H1 H2 H3 H4 Hauth.
    rewrite Hne, Hle, Hnb, Hle by done.
    rewrite authenticate_user_run in Hauth.
    destruct (registered_clients st !! jid) as [u|]; [|done].
    injection Hauth as ->. done.
Qed.

(** ** The registry across the segments of a connection *)

Lemma process_message_frame (data : pyval) (st : server) :
  ∃ r eff, process_message data st = (r, st, eff).
Proof.
  destruct (process_message_cases data st)
    as [[e ->] | [-> | (d & f & i & -> & Hfrom & Hact & Hinfo)]];
    [by eexists _, _ ..|].
  rewrite (process_message_active d f i st Hfrom Hact Hinfo). simpl.
  destruct (py_eq_str _ "message" && _).
  { destruct (route_message_frame (default VNone (dict_get d "to"))
                (VDict [("tag", VStr "message"); ("from", VStr f);
                        ("to", default VNone (dict_get d "to"));
                        ("info", VStr i)]) st) as (r & eff & -> & _).
    by eexists _, _. }
  destruct (py_eq_str _ "file"); [|by eexists _, _].
  destruct (route_message_frame (default VNone (dict_get d "to"))
              (VDict [("tag", VStr "file"); ("from", VStr f);
                      ("to", default VNone (dict_get d "to"));
                      ("info", VStr i);
                      ("filename", default VNone (dict_get d "filename"))])
              st) as (r & eff & -> & _).
  by eexists _, _.
Qed.

Lemma handle_messages_step_frame (frame : outcome pyval) (st : server) :
  ∃ r eff, handle_messages_step frame st = (r, st, eff).
Proof.
  unfold handle_messages_step. rewrite bind_lift.
  destruct frame as [data|e]; [apply process_message_frame|].
  by eexists _, _.
Qed.

Lemma cleanup_user_spec (jid : option string) (st : server) :
  cleanup_user jid st
  = match jid with
    | Some j =>
        if dict_in j (active_connections st) then
          broadcast_presence
            (Server (registered_clients st)
                    (dict_del (active_connections st) j))
        else (Ok (), st, [])
    | None => (Ok (), st, [])
    end.
Proof.
  unfold cleanup_user. rewrite bind_get_active.
  destruct jid as [j|]; [|reflexivity].
  destruct (dict_in j (active_connections st)); [|reflexivity].
  by rewrite bind_put_active.
Qed.

(** The [finally] block leaves the credential records alone and removes
    at most the registry entry of its [jid]. *)
Lemma handle_client_finally_cases (jid : option string) (st st' : server)
    (eff : list effect) :
  handle_client_finally jid st = (st', eff) →
  st' = st
  ∨ ∃ j, jid = Some j ∧ dict_in j (active_connections st) = true
         ∧ st' = Server (registered_clients st)
                        (dict_del (active_connections st) j).
Proof.
  unfold handle_client_finally. rewrite cleanup_user_spec.
  destruct jid as [j|]; [|intros [= <- <-]; by left].
  destruct (dict_in j (active_connections st)) eqn:Hin;
    [|intros [= <- <-]; by left].
  destruct (broadcast_presence_frame
              (Server (registered_clients st)
                      (dict_del (active_connections st) j)))
    as (r & eff0 & -> & _).
  intros [= <- <-]. right. by exists j.
Qed.

(** ** The credential records *)

Lemma credentials_kept_refl (rc : gmap string user) : credentials_kept rc rc.
Proof. intros k. by destruct (rc !! k). Qed.

Lemma credentials_kept_trans (rc1 rc2 rc3 : gmap string user) :
  credentials_kept rc1 rc2 → credentials_kept rc2 rc3 →
  credentials_kept rc1 rc3.
Proof.
  intros H12 H23 k. specialize (H12 k). specialize (H23 k).
  destruct (rc1 !! k), (rc2 !! k), (rc3 !! k); try done.
  destruct H12 as (? & ? & ?), H23 as (? & ? & ?).
  repeat split; congruence.
Qed.

Lemma credentials_kept_login (rc : gmap string user) (j : string)
    (u : user) (w : ws) (pk : pyval) :
  rc !! j = Some u →
  credentials_kept rc (<[j := set_publickey pk (set_websocket w u)]> rc).
Proof.
  intros Hu k. destruct (decide (j = k)) as [<-|Hne].
  - by rewrite lookup_insert_eq, Hu.
  - rewrite lookup_insert_ne by done. by destruct (rc !! k).
Qed.

(** One step of the system takes the server through at most a login
    followed by at most a removal from the registry. *)
Lemma step_server (wd : world) (ev : event) :
  ∃ st1,
    (st1 = srv wd
     ∨ ∃ j u w pk, registered_clients (srv wd) !! j = Some u
                   ∧ st1 = logged_in (srv wd) j u w pk)
    ∧ (srv (step wd ev).1 = st1
       ∨ ∃ j, srv (step wd ev).1
              = Server (registered_clients st1)
                       (dict_del (active_connections st1) j)).
Proof.
  destruct ev as [w|w frame]; simpl.
  { exists (srv wd). split; [by left|left].
    by destruct (conns wd !! w). }
  destruct (conns wd !! w) as [[|jid|jid]|];
    try (exists (srv wd); split; by left).
  - destruct (handle_client_login w frame (srv wd))
      as [jid [[r st1] e1]] eqn:Hlogin.
    exists st1. split.
    { destruct (handle_client_login_cases _ _ _ _ _ _ _ Hlogin)
        as [[-> _] | (j & u & pk & eff' & _ & Hu & -> & _ & _)];
        [by left | right; by exists j, u, w, pk]. }
    destruct (handle_client_finally jid st1) as [st2 e2] eqn:Hfin.
    destruct (handle_client_finally_cases _ _ _ _ Hfin)
      as [-> | (j & _ & _ & ->)].
    + left. by destruct r as [[|]|].
    + destruct r as [[|]|]; [by left | right; by exists j ..].
  - exists (srv wd). split; [by left|].
    destruct (handle_messages_step_frame frame (srv wd))
      as (r & eff & ->).
    destruct r as [[]|e]; [by left|].
    destruct (handle_client_finally jid (srv wd)) as [st2 e2] eqn:Hfin.
    destruct (handle_client_finally_cases _ _ _ _ Hfin)
      as [-> | (j & _ & _ & ->)]; [by left | right; by exists j].
Qed.

Lemma step_credentials (wd : world) (ev : event) :
  credentials_kept (registered_clients (srv wd))
                   (registered_clients (srv (step wd ev).1)).
Proof.
  destruct (step_server wd ev) as (st1 & Hlogin & Hfin).
  apply credentials_kept_trans with (registered_clients st1).
  - destruct Hlogin as [-> | (j & u & w & pk & Hu & ->)];
      [apply credentials_kept_refl | by apply credentials_kept_login].
  - destruct Hfin as [-> | [j ->]]; apply credentials_kept_refl.
Qed.

Lemma run_cons (wd : world) (ev : event) (evs : list event) :
  (run wd (ev :: evs)).1 = (run (step wd ev).1 evs).1.
Proof.
  simpl. destruct (step wd ev) as [wd1 e1]. simpl.
  by destruct (run wd1 evs).
Qed.

(** C2, as the code has it.  Along every run of the system the keys of
    [registered_clients] stay the same and every record keeps its
    nickname, jid and password hash.  A record is not otherwise left
    alone: registering a session after a successful login stores the
    websocket and the public key of the connection in the record of that
    identity, and touches no other record. *)
Theorem credentials_stable (wd : world) (evs : list event) :
  credentials_kept (registered_clients (srv wd))
                   (registered_clients (srv (run wd evs).1))
  ∧ ∀ (st : server) (jid : string) (w : ws) (pk : pyval) (u : user),
      registered_clients st !! jid = Some u →
      ∃ st',
        add_clients_to_active_connections jid w pk st = (Ok jid, st', [])
        ∧ registered_clients st' !! jid
          = Some (User (u_nickname u) (u_jid u) (u_password u)
                       (Some w) (Some pk))
        ∧ ∀ k, k ≠ jid →
               registered_clients st' !! k = registered_clients st !! k.
Proof.
  split.
  - revert wd. induction evs as [|ev evs IH]; intros wd.
    + apply credentials_kept_refl.
    + rewrite run_cons.
      eapply credentials_kept_trans; [apply step_credentials | apply IH].
  - intros st jid w pk u Hu. exists (logged_in st jid u w pk).
    rewrite add_clients_spec, Hu. split; [done|]. simpl. split.
    + apply lookup_insert_eq.
    + intros k Hne. by apply lookup_insert_ne.
Qed.

(** ** States the server can be in *)

Lemma dict_set_elem {V} (d : list (string * V)) (j k : string) (v x : V) :
  (k, x) ∈ dict_set d j v → (k, x) = (j, v) ∨ (k, x) ∈ d.
Proof.
  induction d as [|[k' v'] d IH]; simpl.
  - intros Hin. apply list_elem_of_singleton in Hin. by left.
  - destruct (String.eqb_spec k' j) as [->|Hne]; intros Hin;
      apply elem_of_cons in Hin as [Heq|Hin].
    + by left.
    + right. by apply list_elem_of_further.
    + right. rewrite Heq. apply list_elem_of_here.
    + destruct (IH Hin) as [?|?]; [by left|].
      right. by apply list_elem_of_further.
Qed.

Lemma dict_set_keys {V} (d : list (string * V)) (j k : string) (v : V) :
  k ∈ dict_keys (dict_set d j v) → k = j ∨ k ∈ dict_keys d.
Proof.
  unfold dict_keys. intros Hin.
  apply list_elem_of_fmap in Hin as ([k' x] & -> & Hin).
  destruct (dict_set_elem _ _ _ _ _ Hin) as [[= -> ->]|Hd]; [by left|].
  right. apply list_elem_of_fmap. by exists (k', x).
Qed.

Lemma dict_set_NoDup {V} (d : list (string * V)) (j : string) (v : V) :
  NoDup (dict_keys d) → NoDup (dict_keys (dict_set d j v)).
Proof.
  induction d as [|[k' v'] d IH]; simpl.
  - intros _. apply NoDup_singleton.
  - intros Hnd. apply NoDup_cons in Hnd as [Hnotin Hnd].
    destruct (String.eqb_spec k' j) as [->|Hne]; simpl.
    + by apply NoDup_cons.
    + apply NoDup_cons. split; [|by apply IH].
      intros Hin. by destruct (dict_set_keys _ _ _ _ Hin).
Qed.

Lemma dict_del_elem {V} (d : list (string * V)) (j k : string) (x : V) :
  (k, x) ∈ dict_del d j → (k, x) ∈ d.
Proof.
  induction d as [|[k' v'] d IH]; simpl; [done|].
  destruct (String.eqb k' j); intros Hin.
  - by apply list_elem_of_further.
  - apply elem_of_cons in Hin as [->|Hin]; [apply list_elem_of_here|].
    by apply list_elem_of_further, IH.
Qed.

Lemma dict_del_NoDup {V} (d : list (string * V)) (j : string) :
  NoDup (dict_keys d) → NoDup (dict_keys (dict_del d j)).
Proof.
  induction d as [|[k' v'] d IH]; simpl; [done|].
  intros Hnd. apply NoDup_cons in Hnd as [Hnotin Hnd].
  destruct (String.eqb k' j); [done|]. simpl.
  apply NoDup_cons. split; [|by apply IH].
  intros Hin. apply Hnotin. unfold dict_keys in *.
  apply list_elem_of_fmap in Hin as ([k x] & -> & Hin).
  apply list_elem_of_fmap. exists (k, x). split; [done|].
  by eapply dict_del_elem.
Qed.

Lemma dict_get_None {V} (d : list (string * V)) (k : string) :
  k ∉ dict_keys d → dict_get d k = None.
Proof.
  induction d as [|[k' v'] d IH]; simpl; [done|].
  intros Hnotin. apply not_elem_of_cons in Hnotin as [Hne Hnotin].
  apply not_eq_sym, String.eqb_neq in Hne. rewrite Hne. by apply IH.
Qed.

Lemma dict_get_del_eq {V} (d : list (string * V)) (k : string) :
  NoDup (dict_keys d) → dict_get (dict_del d k) k = None.
Proof.
  induction d as [|[k' v'] d IH]; simpl; [done|].
  intros Hnd. apply NoDup_cons in Hnd as [Hnotin Hnd].
  destruct (String.eqb_spec k' k) as [->|Hne]; simpl.
  - by apply dict_get_None.
  - apply String.eqb_neq in Hne. rewrite Hne. by apply IH.
Qed.

Lemma wf_server_0 : wf_server server_0.
Proof.
  split; simpl; [apply NoDup_nil_2|].
  intros j r Hin. by apply elem_of_nil in Hin.
Qed.

Lemma wf_logged_in (st : server) (j : string) (u : user) (w : ws)
    (pk : pyval) :
  wf_server st → registered_clients st !! j = Some u →
  wf_server (logged_in st j u w pk).
Proof.
  intros [Hnd Hwf] Hu. split; simpl; [by apply dict_set_NoDup|].
  intros k r Hin.
  destruct (dict_set_elem _ _ _ _ _ Hin) as [[= -> ->]|Hold].
  - split; [done|]. rewrite lookup_insert_eq. by eexists.
  - destruct (Hwf k r Hold) as (-> & u' & Hu' & Hws). split; [done|].
    destruct (decide (j = k)) as [->|Hne].
    + rewrite lookup_insert_eq. by eexists.
    + rewrite lookup_insert_ne by done. by exists u'.
Qed.

Lemma wf_removed (st : server) (j : string) :
  wf_server st →
  wf_server (Server (registered_clients st)
                    (dict_del (active_connections st) j)).
Proof.
  intros [Hnd Hwf]. split; simpl; [by apply dict_del_NoDup|].
  intros k r Hin. apply Hwf. by eapply dict_del_elem.
Qed.

Lemma presence_entries_wf (l : list ref) (st : server) :
  Forall (λ r, is_Some (channel_of st r)) l →
  ∃ entries,
    collect (λ client_info,
               u ← deref client_info; mret (presence_entry u)) l st
    = (Ok entries, st, []).
Proof.
  induction 1 as [|x l [w Hw] _ [entries IH]]; simpl; [by eexists|].
  rewrite (bind_assoc (B:=pyval)), bind_run, deref_spec.
  unfold channel_of in Hw.
  destruct (registered_clients st !! x) as [u|]; [|done].
  rewrite bind_ret, bind_run, IH. by eexists.
Qed.

(** In a state the server can be in, the presence push goes through. *)
Lemma broadcast_presence_wf (st : server) :
  wf_server st → ∃ eff, broadcast_presence st = (Ok (), st, eff).
Proof.
  intros Hwf. unfold broadcast_presence.
  rewrite bind_get_active, bind_run.
  destruct (presence_entries_wf _ st (wf_channels st Hwf)) as [entries ->].
  rewrite broadcast_spec by done. by eexists.
Qed.

(** ** A connection on its own *)

Lemma world_eta (wd : world) : World (srv wd) (conns wd) = wd.
Proof. by destruct wd. Qed.

Lemma run_closed (w : ws) (jid : option string) (frames : list (outcome pyval))
    (wd : world) :
  conns wd !! w = Some (Closed jid) →
  run wd (map (Recv w) frames) = (wd, []).
Proof.
  intros Hw. induction frames as [|frame frames IH]; simpl; [done|].
  by rewrite Hw, IH.
Qed.

Lemma run_message_loop (w : ws) (jid : option string)
    (rest : list (outcome pyval)) (wd : world) :
  conns wd !! w = Some (MessageLoop jid) →
  run wd (map (Recv w) (rest ++ [Raise ConnectionClosedOK]))
  = let '(_, st2, e2) := handle_messages rest (srv wd) in
    let '(st3, e3) := handle_client_finally jid st2 in
    (World st3 (<[w := Closed jid]> (conns wd)), e2 ++ e3).
Proof.
  intros Hw. induction rest as [|frame rest IH]; simpl.
  - rewrite Hw. simpl.
    destruct (handle_client_finally jid (srv wd)) as [st3 e3].
    by rewrite app_nil_r.
  - rewrite Hw, bind_run.
    destruct (handle_messages_step_frame frame (srv wd)) as (r & eff & ->).
    destruct r as [[]|e].
    + rewrite world_eta, IH.
      destruct (handle_messages rest (srv wd)) as [[r2 st2] e2].
      destruct (handle_client_finally jid st2) as [st3 e3].
      by rewrite app_assoc.
    + destruct (handle_client_finally jid (srv wd)) as [st3 e3].
      rewrite (run_closed w jid); [by rewrite app_nil_r|].
      simpl. apply lookup_insert_eq.
Qed.

(** The steps of the system that belong to one connection, taken without
    any other in between, are a call of [handle_client]: the same state is
    reached and the same is written. *)
Lemma handle_client_run (w : ws) (first : outcome pyval)
    (rest : list (outcome pyval)) (wd : world) :
  conns wd !! w = Some AwaitingLogin →
  let '(_, st', eff) := handle_client w first rest (srv wd) in
  let '(wd', eff') :=
    run wd (map (Recv w) (first :: rest ++ [Raise ConnectionClosedOK])) in
  srv wd' = st' ∧ eff' = eff.
Proof.
  intros Hw. unfold handle_client. simpl. rewrite Hw.
  destruct (handle_client_login w first (srv wd))
    as [jid [[r1 st1] e1]] eqn:Hlogin.
  destruct r1 as [[|]|e].
  - rewrite (run_message_loop w jid); [|apply lookup_insert_eq]. simpl.
    destruct (handle_messages rest st1) as [[r2 st2] e2].
    unfold handle_client_finally.
    by destruct (cleanup_user jid st2) as [[r3 st3] e3].
  - unfold handle_client_finally.
    destruct (cleanup_user jid st1) as [[r3 st3] e3].
    rewrite (run_closed w jid); [|apply lookup_insert_eq].
    by rewrite app_nil_r.
  - unfold handle_client_finally.
    destruct (cleanup_user jid st1) as [[r3 st3] e3].
    rewrite (run_closed w jid); [|apply lookup_insert_eq].
    by rewrite app_nil_r.
Qed.

(** ** The life of a session *)

(** What one step does, from a state the server can be in: it leaves the
    server alone, or it is a successful login, or it is the teardown of a
    connection, which removes the entry of that connection's [jid]. *)
Lemma step_cases (wd : world) (ev : event) :
  wf_server (srv wd) →
  srv (step wd ev).1 = srv wd
  ∨ (∃ w frame j u pk,
       ev = Recv w frame ∧ conns wd !! w = Some AwaitingLogin
       ∧ registered_clients (srv wd) !! j = Some u
       ∧ (step wd ev).1
         = World (logged_in (srv wd) j u w pk)
                 (<[w := MessageLoop (Some j)]> (conns wd)))
  ∨ (∃ w frame j,
       ev = Recv w frame
       ∧ (conns wd !! w = Some AwaitingLogin
          ∨ conns wd !! w = Some (MessageLoop (Some j)))
       ∧ dict_in j (active_connections (srv wd)) = true
       ∧ (step wd ev).1
         = World (Server (registered_clients (srv wd))
                         (dict_del (active_connections (srv wd)) j))
                 (<[w := Closed (Some j)]> (conns wd))).
Proof.
  intros Hwf. destruct ev as [w|w frame]; simpl.
  { left. by destruct (conns wd !! w). }
  destruct (conns wd !! w) as [[|jid|jid]|] eqn:Hw; try by left.
  - destruct (handle_client_login w frame (srv wd))
      as [jid [[r st1] e1]] eqn:Hlogin.
    destruct (handle_client_login_cases _ _ _ _ _ _ _ Hlogin)
      as [[-> Hr]
         | (j & u & pk & eff' & -> & Hu & -> & _ & r0 & Hpush & ->)].
    + destruct (handle_client_finally jid (srv wd)) as [st2 e2] eqn:Hfin.
      destruct (handle_client_finally_cases _ _ _ _ Hfin)
        as [-> | (j & -> & Hin & ->)].
      * left. by destruct r as [[|]|].
      * right; right. exists w, frame, j.
        destruct r as [[|]|]; [done| |]; repeat split; by try left.
    + right; left. exists w, frame, j, u, pk.
      destruct (broadcast_presence_wf _ (wf_logged_in _ _ _ w pk Hwf Hu))
        as [eff Heff].
      rewrite Heff in Hpush. by injection Hpush as <- _.
  - destruct (handle_messages_step_frame frame (srv wd))
      as (r & eff & ->).
    destruct r as [[]|e]; [by left|].
    destruct (handle_client_finally jid (srv wd)) as [st2 e2] eqn:Hfin.
    destruct (handle_client_finally_cases _ _ _ _ Hfin)
      as [-> | (j & -> & Hin & ->)]; [by left|].
    right; right. exists w, frame, j. repeat split; by try right.
Qed.

Lemma wf_step (wd : world) (ev : event) :
  wf_server (srv wd) → wf_server (srv (step wd ev).1).
Proof.
  intros Hwf.
  destruct (step_cases wd ev Hwf)
    as [-> | [(w & frame & j & u & pk & _ & _ & Hu & ->)
             | (w & frame & j & _ & _ & _ & ->)]]; simpl.
  - done.
  - by apply wf_logged_in.
  - by apply wf_removed.
Qed.

(** Every state reached from the initial one is well formed. *)
Lemma wf_run (wd : world) (evs : list event) :
  wf_server (srv wd) → wf_server (srv (run wd evs).1).
Proof.
  revert wd. induction evs as [|ev evs IH]; intros wd Hwf; [done|].
  rewrite run_cons. by apply IH, wf_step.
Qed.

Lemma lookup_session_wf (st : server) (X : string) (u : user) :
  wf_server st → lookup_session st X = Some u →
  dict_get (active_connections st) X = Some X
  ∧ registered_clients st !! X = Some u.
Proof.
  intros [_ Hwf] Hlook. unfold lookup_session in Hlook.
  destruct (dict_get (active_connections st) X) as [r|] eqn:Hr;
    [|done].
  simpl in Hlook.
  destruct (Hwf X r (dict_get_elem _ _ _ Hr)) as [-> _]. done.
Qed.

(** C3, as the code has it.  From a state the server can be in, one step
    of the system does one of three things to the session registered for
    an identity [X]: it leaves it as it is; or it is a successful login
    for [X] on a connection [w], which puts the channel of [w] in the
    session; or it is the teardown of a connection whose [jid] is [X],
    which removes the session.  That connection is any one that received
    a login frame naming [X]: it need not be the one whose channel the
    session holds, nor one that passed the login. *)
Theorem session_lifetime (wd : world) (ev : event) (X : string) (u : user)
    (Hwf : wf_server (srv wd))
    (Hsession : lookup_session (srv wd) X = Some u) :
  lookup_session (srv (step wd ev).1) X = Some u
  ∨ (∃ w frame u',
       ev = Recv w frame
       ∧ conns wd !! w = Some AwaitingLogin
       ∧ conns (step wd ev).1 !! w = Some (MessageLoop (Some X))
       ∧ lookup_session (srv (step wd ev).1) X = Some u'
       ∧ u_websocket u' = Some w)
  ∨ (∃ w frame,
       ev = Recv w frame
       ∧ (conns wd !! w = Some AwaitingLogin
          ∨ conns wd !! w = Some (MessageLoop (Some X)))
       ∧ conns (step wd ev).1 !! w = Some (Closed (Some X))
       ∧ lookup_session (srv (step wd ev).1) X = None).
Proof.
  destruct (lookup_session_wf _ _ _ Hwf Hsession) as [HX Hu].
  destruct (step_cases wd ev Hwf)
    as [-> | [(w & frame & j & u0 & pk & -> & Hw & Hu0 & ->)
             | (w & frame & j & -> & Hw & Hin & ->)]]; simpl.
  - by left.
  - destruct (decide (j = X)) as [->|Hne].
    + right; left.
      exists w, frame, (set_publickey pk (set_websocket w u0)).
      repeat split; try done.
      * apply lookup_insert_eq.
      * unfold lookup_session. simpl. rewrite dict_get_set_eq. simpl.
        apply lookup_insert_eq.
    + left. unfold lookup_session. simpl.
      rewrite dict_get_set_ne, HX by done. simpl.
      by rewrite lookup_insert_ne.
  - destruct (decide (j = X)) as [->|Hne].
    + right; right. exists w, frame. repeat split; try done.
      * apply lookup_insert_eq.
      * unfold lookup_session. simpl.
        rewrite dict_get_del_eq; [done|apply Hwf].
    + left. unfold lookup_session. simpl.
      by rewrite dict_get_del_ne, HX.
Qed.
End properties.

(** * Further properties of the functions *)

Section further.
Context `{Libraries}.

(** ** The presence push and the removal of a session *)

Lemma presence_entries_roster (l : list ref) (st : server) :
  Forall (λ r, is_Some (channel_of st r)) l →
  collect (λ client_info,
             u ← deref client_info; mret (presence_entry u)) l st
  = (Ok (omap (λ r, presence_entry <$> registered_clients st !! r) l),
     st, []).
Proof.
  induction 1 as [|x l [w Hw] _ IH]; simpl; [done|].
  rewrite (bind_assoc (B:=pyval)), bind_run, deref_spec.
  unfold channel_of in Hw.
  destruct (registered_clients st !! x) as [u|]; [|done].
  rewrite bind_ret, bind_run, IH. reflexivity.
Qed.

Lemma broadcast_presence_run (st : server) :
  wf_server st →
  broadcast_presence st
  = (Ok (), st, map (λ w, Send w (presence_message st)) (channels st)).
Proof.
  intros Hwf. unfold broadcast_presence.
  rewrite bind_get_active, bind_run.
  rewrite (presence_entries_roster _ st (wf_channels st Hwf)).
  by rewrite broadcast_spec.
Qed.

Lemma length_omap_all {A B} (f : A → option B) (l : list A) :
  Forall (λ x, is_Some (f x)) l → length (omap f l) = length l.
Proof.
  induction 1 as [|x l [y Hy] _ IH]; simpl; [done|].
  rewrite Hy. simpl. f_equal. exact IH.
Qed.

(** X1. In a state the server can be in, [broadcast_presence] sends one
    and the same record to the channel of every active session, in the
    order of the registry, and changes nothing.  The record lists one
    entry per active session, so the list is as long as the registry. *)
Theorem broadcast_presence_roster (st : server) (Hwf : wf_server st) :
  broadcast_presence st
  = (Ok (), st, map (λ w, Send w (presence_message st)) (channels st))
  ∧ length (roster st) = length (active_connections st)
  ∧ length (channels st) = length (active_connections st).
Proof.
  split; [by apply broadcast_presence_run|].
  pose proof (wf_channels st Hwf) as Hall.
  unfold roster, channels. split.
  - rewrite length_omap_all; [unfold dict_values; apply length_map|].
    eapply Forall_impl; [exact Hall|]. intros r [w Hw].
    unfold channel_of in Hw.
    destruct (registered_clients st !! r); [by eexists|done].
  - rewrite length_omap_all by done. unfold dict_values. apply length_map.
Qed.

Lemma dict_in_del {V} (d : list (string * V)) (k : string) :
  NoDup (dict_keys d) → dict_in k (dict_del d k) = false.
Proof. intros Hnd. unfold dict_in. by rewrite dict_get_del_eq. Qed.

Lemma cleanup_user_active (j : string) (st : server) :
  wf_server st → dict_in j (active_connections st) = true →
  cleanup_user (Some j) st
  = (Ok (), removed st j,
     map (λ w, Send w (presence_message (removed st j)))
         (channels (removed st j))).
Proof.
  intros Hwf Hin. rewrite cleanup_user_spec, Hin.
  apply broadcast_presence_run. by apply wf_removed.
Qed.

(** X2. [cleanup_user] can be run again without harm: from a state the
    server can be in, a second call with the same [jid] changes nothing and
    sends nothing, whatever the first one did. *)
Theorem cleanup_user_idempotent (jid : option string) (st : server)
    (Hwf : wf_server st) :
  ∃ r1 st1 e1,
    cleanup_user jid st = (r1, st1, e1)
    ∧ cleanup_user jid st1 = (Ok (), st1, []).
Proof.
  destruct jid as [j|].
  - destruct (dict_in j (active_connections st)) eqn:Hin.
    + eexists _, _, _. split; [by apply cleanup_user_active|].
      rewrite cleanup_user_spec. simpl.
      rewrite dict_in_del; [done|apply Hwf].
    + exists (Ok ()), st, []. rewrite cleanup_user_spec, Hin. done.
  - exists (Ok ()), st, []. by rewrite cleanup_user_spec.
Qed.

(** X3. [cleanup_user] for an active identity removes the session of that
    identity and of no other, and pushes the presence, built from the
    registry after the removal, to the channels of the sessions that
    remain. *)
Theorem cleanup_user_removes (j : string) (st : server)
    (Hwf : wf_server st)
    (Hactive : dict_in j (active_connections st) = true) :
  ∃ st',
    cleanup_user (Some j) st
    = (Ok (), st',
       map (λ w, Send w (presence_message st')) (channels st'))
    ∧ lookup_session st' j = None
    ∧ (∀ k, k ≠ j → lookup_session st' k = lookup_session st k)
    ∧ length (active_connections st')
      = pred (length (active_connections st)).
Proof.
  exists (removed st j). split; [by apply cleanup_user_active|].
  split; [|split].
  - unfold lookup_session, removed. simpl.
    rewrite dict_get_del_eq; [done|apply Hwf].
  - intros k Hne. unfold lookup_session, removed. simpl.
    by rewrite dict_get_del_ne.
  - unfold removed. simpl. clear Hwf. revert Hactive. unfold dict_in.
    induction (active_connections st) as [|[k v] d IH]; simpl; [done|].
    destruct (String.eqb k j); [done|]. intros Hin. simpl.
    rewrite IH by done.
    destruct d as [|[k' v'] d]; [simpl in Hin; done|reflexivity].
Qed.

(** ** Logins that do not go through *)

Lemma login_field_errors (data : pyval) (k : string) (e : exn) :
  login_field data k ≫= bleach_clean = Raise e →
  e = TypeError ∨ e = KeyError ∨ e = IndexError ∨ e = AttributeError.
Proof.
  unfold login_field, py_getitem_str, py_getitem_0, py_get, bleach_clean.
  munfold. intros Hraise.
  repeat (case_match; simplify_eq); auto.
Qed.

(** X4. A login frame from which no textual [jid] can be read, because
    [presence] is missing or empty or not a list of objects, or because the
    [jid] is missing or not a string, is not answered at all: nothing is
    sent, no state changes, and the exception leaves [handle_client]. *)
Theorem handle_client_unreadable_login (w : ws) (data : pyval)
    (rest : list (outcome pyval)) (st : server) (e : exn)
    (Hjid : login_field data "jid" ≫= bleach_clean = Raise e) :
  handle_client w (Ok data) rest st = (Raise e, st, []).
Proof.
  unfold handle_client, handle_client_login. rewrite Hjid.
  rewrite cleanup_user_spec.
  by destruct (login_field_errors _ _ _ Hjid) as [-> | [-> | [-> | ->] ] ].
Qed.

Lemma handle_client_login_rejected (w : ws) (data : pyval) (j p : string)
    (st : server) (message : string) :
  login_field data "jid" = Ok (VStr j) →
  login_field data "password" = Ok (VStr p) →
  rejection st (sanitize j) (sanitize p) = Some message →
  handle_client_login w (Ok data) st
  = (Some (sanitize j),
     (Ok false, st, [Send w (error_message message)])).
Proof.
  intros Hjid Hp Hrej.
  destruct (login_field_other data "jid" "publickey" _ Hjid) as [pk Hpk].
  unfold handle_client_login. rewrite Hjid. simpl.
  by rewrite (handle_client_validate_spec w data _ p pk st Hp Hpk), Hrej.
Qed.

(** X5. A login that is rejected, by a validation check or by the
    authenticator, still ends in the [finally] block with the [jid] of the
    frame.  If that identity has no session, the connection gets its one
    error reply and nothing else happens.  If it has one, the session is
    removed and the sessions that remain are told: whoever sends a login
    frame naming an active identity, with any wrong password, logs that
    identity out. *)
Theorem handle_client_rejected (w : ws) (data : pyval) (j p : string)
    (rest : list (outcome pyval)) (st : server) (message : string)
    (Hwf : wf_server st)
    (Hjid : login_field data "jid" = Ok (VStr j))
    (Hpassword : login_field data "password" = Ok (VStr p))
    (Hrejected : rejection st (sanitize j) (sanitize p) = Some message) :
  let jid := sanitize j in
  let st' := removed st jid in
  handle_client w (Ok data) rest st
  = (if dict_in jid (active_connections st) then
       (Ok (), st',
        Send w (error_message message)
        :: map (λ c, Send c (presence_message st')) (channels st'))
     else (Ok (), st, [Send w (error_message message)]))
  ∧ lookup_session st' jid = None.
Proof.
  intros jid st'. split.
  - unfold handle_client.
    rewrite (handle_client_login_rejected w data j p st message)
      by done.
    fold jid. destruct (dict_in jid (active_connections st)) eqn:Hin.
    + by rewrite cleanup_user_active.
    + by rewrite cleanup_user_spec, Hin.
  - unfold lookup_session, st', removed. simpl.
    rewrite dict_get_del_eq; [done|apply Hwf].
Qed.

(** ** Registration *)

Lemma dict_set_keys_eq {V} (d : list (string * V)) (k : string) (v : V) :
  dict_keys (dict_set d k v)
  = if dict_in k d then dict_keys d else dict_keys d ++ [k].
Proof.
  unfold dict_in. induction d as [|[k' v'] d IH]; simpl; [done|].
  destruct (String.eqb k' k); simpl; [done|].
  rewrite IH. by destruct (dict_get d k).
Qed.

(** X6. [add_clients_to_active_connections] for a registered identity
    keeps one registry entry per identity.  An identity that is active
    keeps its place in the registry, and with it in every roster; one that
    is not is put at the end.  Either way the session found under the
    identity afterwards carries the new websocket and public key, and the
    entries of the other identities are as before. *)
Theorem add_clients_registry (jid : string) (w : ws) (pk : pyval)
    (st : server) (u : user)
    (Hregistered : registered_clients st !! jid = Some u) :
  ∃ st',
    add_clients_to_active_connections jid w pk st = (Ok jid, st', [])
    ∧ dict_keys (active_connections st')
      = (if dict_in jid (active_connections st)
         then dict_keys (active_connections st)
         else dict_keys (active_connections st) ++ [jid])
    ∧ lookup_session st' jid
      = Some (User (u_nickname u) (u_jid u) (u_password u)
                   (Some w) (Some pk))
    ∧ ∀ k, k ≠ jid →
           dict_get (active_connections st') k
           = dict_get (active_connections st) k.
Proof.
  exists (logged_in st jid u w pk).
  rewrite add_clients_spec, Hregistered. split; [done|].
  unfold logged_in, lookup_session. simpl. split; [|split].
  - apply dict_set_keys_eq.
  - rewrite dict_get_set_eq. simpl. apply lookup_insert_eq.
  - intros k Hne. by apply dict_get_set_ne.
Qed.

(** X7. Started with an empty registry, the system only reaches states in
    which the registry has one entry per identity, every entry refers to
    the credential record of its own identity, and that record carries a
    websocket; so a lookup of the session or of its channel never fails
    with [KeyError]. *)
Theorem registry_invariant (wd : world) (evs : list event)
    (Hempty : active_connections (srv wd) = []) :
  wf_server (srv (run wd evs).1).
Proof.
  apply wf_run. split; rewrite Hempty; simpl; [apply NoDup_nil_2|].
  intros j r Hin. by apply elem_of_nil in Hin.
Qed.

(** ** The message loop *)

Lemma relay_sends (t : string) (fields : list (string * pyval))
    (targets : list ws) :
  String.eqb t "message" || String.eqb t "file" = true →
  Forall (λ e, is_relay e = true)
         (map (λ w, Send w (VDict (("tag", VStr t) :: fields))) targets).
Proof.
  intros Ht. apply Forall_forall. intros e Hin.
  apply list_elem_of_fmap in Hin as (w & -> & _). exact Ht.
Qed.

Lemma route_message_relays (target : pyval) (t : string)
    (fields : list (string * pyval)) (st : server) :
  String.eqb t "message" || String.eqb t "file" = true →
  ∃ r eff,
    route_message target (VDict (("tag", VStr t) :: fields)) st
    = (r, st, eff)
    ∧ Forall (λ e, is_relay e = true) eff.
Proof.
  intros Ht.
  destruct (route_message_frame target (VDict (("tag", VStr t) :: fields))
              st) as (r & eff & Hrun & [[targets ->] | ->]);
    exists r; eexists; (split; [exact Hrun|]).
  - by apply relay_sends.
  - by apply Forall_singleton.
Qed.

Lemma process_message_relays (data : pyval) (st : server) :
  ∃ r eff,
    process_message data st = (r, st, eff)
    ∧ Forall (λ e, is_relay e = true) eff.
Proof.
  destruct (process_message_cases data st)
    as [[e ->] | [-> | (d & f & i & -> & Hfrom & Hact & Hinfo)]].
  - eexists _, _. split; [done|]. apply Forall_nil_2.
  - eexists _, _. split; [done|]. by apply Forall_singleton.
  - rewrite (process_message_active d f i st Hfrom Hact Hinfo). simpl.
    destruct (py_eq_str _ "message" && _);
      [by apply route_message_relays|].
    destruct (py_eq_str _ "file"); [by apply route_message_relays|].
    eexists _, _. split; [done|]. by apply Forall_singleton.
Qed.

(** X8. Whatever frames arrive, [handle_messages] itself, up to the point
    where it returns or raises, changes neither the registry nor the
    credential records, and all it writes are lines on stdout and records
    with tag [message] or [file].  What [handle_client] does once the loop
    has ended is not part of this. *)
Theorem handle_messages_relays (frames : list (outcome pyval))
    (st : server) :
  ∃ r eff,
    handle_messages frames st = (r, st, eff)
    ∧ Forall (λ e, is_relay e = true) eff.
Proof.
  induction frames as [|frame frames (r & eff & IH & Hrelay)]; simpl.
  - eexists _, _. split; [done|]. apply Forall_nil_2.
  - rewrite bind_run. unfold handle_messages_step. rewrite bind_lift.
    destruct frame as [data|e].
    + destruct (process_message_relays data st) as (r1 & e1 & -> & Hr1).
      destruct r1 as [[]|e].
      * rewrite IH. eexists _, _. split; [done|]. by apply Forall_app.
      * by eexists _, _.
    + eexists _, _. split; [done|]. apply Forall_nil_2.
Qed.

Lemma route_message_direct (t : string) (message : pyval) (st : server)
    (u : user) (w : ws) :
  t ≠ "public" → lookup_session st t = Some u → u_websocket u = Some w →
  route_message (VStr t) message st = (Ok (), st, [Send w message]).
Proof.
  intros Hne Hlook Hw. unfold route_message. simpl.
  apply String.eqb_neq in Hne. rewrite Hne.
  rewrite bind_get_active, bind_lift. simpl.
  unfold lookup_session in Hlook.
  destruct (dict_get (active_connections st) t) as [r|] eqn:Hr; [|done].
  simpl in Hlook. unfold dict_in. rewrite Hr.
  rewrite send_to_spec. unfold channel_of. rewrite Hlook. simpl.
  by rewrite Hw.
Qed.

(** X9. A chat envelope from an active sender to another active identity,
    with a text that is not empty once cleaned, comes out exactly once, on
    the channel of the target and nowhere else, as the record
    [{tag, from, to, info}] with the fields of the envelope; the sender
    gets nothing back. *)
Theorem direct_message_delivered (d : list (string * pyval))
    (f t i : string) (u : user) (w : ws) (st : server)
    (Hfrom : dict_get d "from" = Some (VStr f))
    (Hactive : dict_in f (active_connections st) = true)
    (Htag : dict_get d "tag" = Some (VStr "message"))
    (Hto : dict_get d "to" = Some (VStr t))
    (Hdirect : t ≠ "public")
    (Hinfo : dict_get d "info" = Some (VStr i))
    (Htext : sanitize i ≠ "")
    (Hsession : lookup_session st t = Some u)
    (Hchannel : u_websocket u = Some w) :
  process_message (VDict d) st
  = (Ok (), st,
     [Send w (VDict [("tag", VStr "message"); ("from", VStr f);
                     ("to", VStr t); ("info", VStr i)])]).
Proof.
  rewrite (process_message_active d f i st Hfrom Hactive Hinfo).
  rewrite Htag, Hto. simpl.
  assert (str_truthy (sanitize i) = true) as ->
    by (by destruct (sanitize i)).
  by apply (route_message_direct t _ st u w).
Qed.

(** X10. [create_message_format] on a decoded object always gives a record
    with the keys [tag], [from], [to], [info] in that order, and after them
    [filename] when the tag is [file] and only then.  The values are those
    of the envelope, [None] for a key the envelope lacks; any other field
    of the envelope is dropped. *)
Theorem create_message_format_fields (d : list (string * pyval))
    (tag : string) :
  ∃ fields,
    create_message_format (VDict d) tag = Ok (VDict fields)
    ∧ dict_keys fields
      = ["tag"; "from"; "to"; "info"]
        ++ (if String.eqb tag "file" then ["filename"] else [])
    ∧ dict_get fields "tag" = Some (VStr tag)
    ∧ ∀ k, dict_in k fields = true → k ≠ "tag" →
           dict_get fields k = Some (default VNone (dict_get d k)).
Proof.
  unfold create_message_format.
  destruct (String.eqb tag "file").
  - exists [("tag", VStr tag);
            ("from", default VNone (dict_get d "from"));
            ("to", default VNone (dict_get d "to"));
            ("info", default VNone (dict_get d "info"));
            ("filename", default VNone (dict_get d "filename"))].
    repeat (split; [reflexivity|]).
    intros k. unfold dict_in. cbn [dict_get].
    intros Hin Hne. revert Hin.
    destruct (String.eqb_spec "tag" k) as [<-|?]; [done|].
    repeat match goal with
           | |- context [String.eqb ?x k] =>
               destruct (String.eqb_spec x k) as [<-|?]; [done|]
           end.
    done.
  - exists [("tag", VStr tag);
            ("from", default VNone (dict_get d "from"));
            ("to", default VNone (dict_get d "to"));
            ("info", default VNone (dict_get d "info"))].
    repeat (split; [reflexivity|]).
    intros k. unfold dict_in. cbn [dict_get].
    intros Hin Hne. revert Hin.
    destruct (String.eqb_spec "tag" k) as [<-|?]; [done|].
    repeat match goal with
           | |- context [String.eqb ?x k] =>
               destruct (String.eqb_spec x k) as [<-|?]; [done|]
           end.
    done.
Qed.

(** ** A login that goes through, and the connection after it *)

Lemma handle_client_login_accepted (w : ws) (data : pyval) (j p : string)
    (pk : pyval) (st : server) (u : user) :
  wf_server st →
  login_field data "jid" = Ok (VStr j) →
  login_field data "password" = Ok (VStr p) →
  login_field data "publickey" = Ok pk →
  rejection st (sanitize j) (sanitize p) = None →
  registered_clients st !! sanitize j = Some u →
  let st' := logged_in st (sanitize j) u w pk in
  handle_client_login w (Ok data) st
  = (Some (sanitize j),
     (Ok true, st',
      Send w (success_message (u_nickname u))
      :: map (λ c, Send c (presence_message st')) (channels st'))).
Proof.
  intros Hwf Hjid Hp Hpk Hrej Hu st'.
  unfold handle_client_login. rewrite Hjid. simpl.
  rewrite (handle_client_validate_spec w data _ p pk st Hp Hpk), Hrej, Hu.
  by rewrite broadcast_presence_run by (by apply wf_logged_in).
Qed.



Lemma handle_messages_frame (frames : list (outcome pyval)) (st : server) :
  ∃ r eff, handle_messages frames st = (r, st, eff).
Proof.
  induction frames as [|frame frames (r & eff & IH)]; simpl;
    [by eexists _, _|].
  rewrite bind_run.
  destruct (handle_messages_step_frame frame st) as (r1 & e1 & ->).
  destruct r1 as [[]|e]; [rewrite IH|]; by eexists _, _.
Qed.

Lemma dict_del_set_fresh {V} (d : list (string * V)) (k : string) (v : V) :
  dict_in k d = false → dict_del (dict_set d k v) k = d.
Proof.
  unfold dict_in. induction d as [|[k' v'] d IH]; simpl.
  - by rewrite String.eqb_refl.
  - destruct (String.eqb k' k) eqn:Hk; [done|]. simpl. rewrite Hk.
    intros Hin. by rewrite IH.
Qed.

(** X12. The whole life of a connection that logs in as an identity which
    was not active: whatever frames it sends and however it ends, when
    [handle_client] is through the registry is what it was before the
    connection, but the credential record of the identity is not: the
    websocket and public key that the login wrote into it stay there. *)
Theorem handle_client_session_round_trip (w : ws) (data : pyval)
    (j p : string) (pk : pyval) (rest : list (outcome pyval))
    (st : server)
    (Hwf : wf_server st)
    (Hjid : login_field data "jid" = Ok (VStr j))
    (Hpassword : login_field data "password" = Ok (VStr p))
    (Hpublickey : login_field data "publickey" = Ok pk)
    (Haccepted : rejection st (sanitize j) (sanitize p) = None)
    (Hfresh : dict_in (sanitize j) (active_connections st) = false) :
  ∃ r st' eff u,
    handle_client w (Ok data) rest st = (r, st', eff)
    ∧ active_connections st' = active_connections st
    ∧ registered_clients st !! sanitize j = Some u
    ∧ registered_clients st' !! sanitize j
      = Some (User (u_nickname u) (u_jid u) (u_password u)
                   (Some w) (Some pk))
    ∧ ∀ k, k ≠ sanitize j →
           registered_clients st' !! k = registered_clients st !! k.
Proof.
  destruct (rejection_None _ _ _ Haccepted) as (u & Hu & _).
  unfold handle_client.
  rewrite (handle_client_login_accepted w data j p pk st u) by done.
  destruct (handle_messages_frame rest (logged_in st (sanitize j) u w pk))
    as (r2 & e2 & ->).
  rewrite cleanup_user_active.
  - eexists _, _, _, u. split; [reflexivity|]. simpl.
    split; [by apply dict_del_set_fresh|]. split; [done|].
    split; [apply lookup_insert_eq|].
    intros k Hne. by apply lookup_insert_ne.
  - by apply wf_logged_in.
  - unfold dict_in, logged_in. simpl. by rewrite dict_get_set_eq.
Qed.

(** ** Frames that end a session, and frames that are treated alike *)

Lemma route_message_unhashable (items : list pyval) (message : pyval)
    (st : server) :
  route_message (VList items) message st = (Raise TypeError, st, []).
Proof.
  unfold route_message. cbn [py_eq_str].
  by rewrite bind_get_active, bind_lift.
Qed.

(** X13. In the message loop, an envelope of an active sender that would
    be forwarded but whose [to] is a JSON array is delivered to nobody:
    the membership test on the registry raises [TypeError], the handler of
    the connection ends, and its [finally] block removes the session of the
    connection and pushes the presence to the sessions that remain. *)
Theorem unhashable_target_ends_session (wd : world) (w : ws)
    (j f i : string) (d : list (string * pyval)) (items : list pyval)
    (Hwf : wf_server (srv wd))
    (Hloop : conns wd !! w = Some (MessageLoop (Some j)))
    (Hsession : dict_in j (active_connections (srv wd)) = true)
    (Hfrom : dict_get d "from" = Some (VStr f))
    (Hactive : dict_in f (active_connections (srv wd)) = true)
    (Htag : dict_get d "tag" = Some (VStr "message"))
    (Hinfo : dict_get d "info" = Some (VStr i))
    (Htext : sanitize i ≠ "")
    (Hto : dict_get d "to" = Some (VList items)) :
  let st' := removed (srv wd) j in
  step wd (Recv w (Ok (VDict d)))
  = (World st' (<[w := Closed (Some j)]> (conns wd)),
     map (λ c, Send c (presence_message st')) (channels st'))
  ∧ lookup_session st' j = None.
Proof.
  intros st'. split.
  - simpl. rewrite Hloop. unfold handle_messages_step.
    rewrite bind_lift,
      (process_message_active d f i (srv wd) Hfrom Hactive Hinfo).
    rewrite Htag, Hto. simpl.
    assert (str_truthy (sanitize i) = true) as ->
      by (by destruct (sanitize i)).
    rewrite route_message_unhashable.
    unfold handle_client_finally.
    by rewrite cleanup_user_active.
  - unfold lookup_session, st', removed. simpl.
    rewrite dict_get_del_eq; [done|apply Hwf].
Qed.

(** X15. The login is decided on the cleaned jid, the cleaned password and
    the public key alone: two login frames that agree on these are treated
    alike in every state, whatever else they contain and however their raw
    jid and password differ. *)
Theorem login_depends_on_cleaned (w : ws) (data data' : pyval)
    (j p j' p' : string) (pk : pyval) (st : server)
    (Hjid : login_field data "jid" = Ok (VStr j))
    (Hpassword : login_field data "password" = Ok (VStr p))
    (Hpublickey : login_field data "publickey" = Ok pk)
    (Hjid' : login_field data' "jid" = Ok (VStr j'))
    (Hpassword' : login_field data' "password" = Ok (VStr p'))
    (Hpublickey' : login_field data' "publickey" = Ok pk)
    (Hsame_jid : sanitize j = sanitize j')
    (Hsame_password : sanitize p = sanitize p') :
  handle_client_login w (Ok data) st = handle_client_login w (Ok data') st.
Proof.
  unfold handle_client_login. rewrite Hjid, Hjid'. simpl.
  rewrite (handle_client_validate_spec w data _ p pk st Hpassword Hpublickey).
  rewrite (handle_client_validate_spec w data' _ p' pk st
             Hpassword' Hpublickey').
  by rewrite Hsame_jid, Hsame_password.
Qed.

(** ** What becomes of an envelope of an active sender *)

Lemma process_message_no_text (d : list (string * pyval)) (f : string)
    (st : server) :
  dict_get d "from" = Some (VStr f) →
  dict_in f (active_connections st) = true →
  (∀ i, dict_get d "info" ≠ Some (VStr i)) →
  process_message (VDict d) st = (Raise TypeError, st, []).
Proof.
  intros Hfrom Hactive Hinfo. unfold process_message.
  rewrite bind_lift. simpl. rewrite bind_get_active, bind_lift.
  rewrite Hfrom. simpl. rewrite Hactive.
  rewrite bind_lift. simpl. rewrite bind_lift. simpl.
  destruct (dict_get d "info") as [[| | | |i| |]|]; simpl;
    try (by rewrite bind_lift).
  by destruct (Hinfo i).
Qed.

Lemma route_message_inactive (target message : pyval) (st : server) :
  target ≠ VStr "public" →
  (∀ t, target = VStr t → dict_in t (active_connections st) = false) →
  ∃ r eff, route_message target message st = (r, st, eff) ∧ sends eff = [].
Proof.
  intros Hne Hinactive. unfold route_message.
  apply py_eq_str_false in Hne. rewrite Hne.
  rewrite bind_get_active, bind_lift.
  destruct target as [| | | |t| |]; simpl;
    try (by exists (Ok ()), [Print "Target client is not active"]);
    try (by exists (Raise TypeError), []).
  rewrite (Hinactive t eq_refl).
  by exists (Ok ()), [Print "Target client is not active"].
Qed.

Lemma route_message_public (message : pyval) (st : server) :
  wf_server st →
  route_message (VStr "public") message st
  = (Ok (), st, map (λ w, Send w message) (channels st)).
Proof. intros Hwf. unfold route_message. simpl. by apply broadcast_spec. Qed.

(** C6, as the code has it.  Take any envelope of an active sender, in a
    state the server can be in.  If its [info] is missing or is not text,
    the envelope is neither dropped nor forwarded, whatever its tag:
    [bleach.clean] raises [TypeError] before any branch, nothing is sent
    and no state changes.  If its [info] is text: tag [message] with an
    [info] that is empty once cleaned is dropped, with a line on stdout,
    no send and no reply; any tag other than [message] and [file] is
    dropped in the same way; tag [file] is forwarded as the record
    [{tag, from, to, info, filename}] whatever the text is, which means
    that the record is sent on the channel of every active session when
    [to] is [public], on the channel of the target and no other when [to]
    is an active identity, and nowhere when [to] is anything else. *)
Theorem process_message_dispatch (d : list (string * pyval)) (f : string)
    (st : server)
    (Hwf : wf_server st)
    (Hfrom : dict_get d "from" = Some (VStr f))
    (Hactive : dict_in f (active_connections st) = true) :
  ((∀ i, dict_get d "info" ≠ Some (VStr i)) →
   process_message (VDict d) st = (Raise TypeError, st, []))
  ∧ ∀ i, dict_get d "info" = Some (VStr i) →
      let to := default VNone (dict_get d "to") in
      let record :=
        VDict [("tag", VStr "file"); ("from", VStr f); ("to", to);
               ("info", VStr i);
               ("filename", default VNone (dict_get d "filename"))] in
      (dict_get d "tag" = Some (VStr "message") → sanitize i = "" →
       process_message (VDict d) st
       = (Ok (), st, [Print "Invalid or incomplete message format"]))
      ∧ (dict_get d "tag" ≠ Some (VStr "message") →
         dict_get d "tag" ≠ Some (VStr "file") →
         process_message (VDict d) st
         = (Ok (), st, [Print "Invalid or incomplete message format"]))
      ∧ (dict_get d "tag" = Some (VStr "file") →
         (to = VStr "public" →
          process_message (VDict d) st
          = (Ok (), st, map (λ w, Send w record) (channels st)))
         ∧ (∀ t u w,
              to = VStr t → t ≠ "public" →
              lookup_session st t = Some u → u_websocket u = Some w →
              process_message (VDict d) st = (Ok (), st, [Send w record]))
         ∧ (to ≠ VStr "public" →
            (∀ t, to = VStr t →
                  dict_in t (active_connections st) = false) →
            ∃ r eff,
              process_message (VDict d) st = (r, st, eff)
              ∧ sends eff = [])).
Proof.
  split; [by apply (process_message_no_text d f st)|].
  intros i Hinfo to record.
  rewrite (process_message_active d f i st Hfrom Hactive Hinfo).
  cbv zeta. fold to. split; [|split].
  - intros -> ->. reflexivity.
  - intros Hm Hf.
    assert (py_eq_str (default VNone (dict_get d "tag")) "message" = false)
      as ->.
    { apply py_eq_str_false. destruct (dict_get d "tag"); simpl; congruence. }
    assert (py_eq_str (default VNone (dict_get d "tag")) "file" = false)
      as ->.
    { apply py_eq_str_false. destruct (dict_get d "tag"); simpl; congruence. }
    reflexivity.
  - intros ->. simpl. fold record. split; [|split].
    + intros ->. by apply route_message_public.
    + intros t u w -> Hne Hsession Hchannel.
      by apply (route_message_direct t record st u w).
    + intros Hne Hinactive. by apply route_message_inactive.
Qed.
End further.

(** * Runs of the server on the data of the source *)

#[local] Existing Instance demo_libraries.

Lemma wf_world_1 : wf_server (srv world_1).
Proof. apply wf_run, wf_server_0. Qed.

Lemma wf_world_2 : wf_server (srv world_2).
Proof. apply wf_run, wf_world_1. Qed.

(** C1.  [c2@s5] sends [c1@s5] a message whose text has markup in it.  The
    record that goes out on the channel of [c1@s5] carries the text as it
    came in, although cleaning it gives another text: [process_message]
    cleans [info] for the emptiness test only and [create_message_format]
    reads the envelope again.  The same holds with tag [file]. *)
Theorem forwarded_info_is_not_cleaned :
  process_message
    (envelope "message" "c2@s5" "c1@s5" evil) (srv world_2)
  = (Ok (), srv world_2,
     [Send 1 (VDict [("tag", VStr "message"); ("from", VStr "c2@s5");
                     ("to", VStr "c1@s5"); ("info", VStr evil)])])
  ∧ process_message
      (envelope "file" "c2@s5" "c1@s5" evil) (srv world_2)
    = (Ok (), srv world_2,
       [Send 1 (VDict [("tag", VStr "file"); ("from", VStr "c2@s5");
                       ("to", VStr "c1@s5"); ("info", VStr evil);
                       ("filename", VNone)])])
  ∧ sanitize evil
    = "an &lt;script&gt;evil()&lt;/script&gt; example"
  ∧ sanitize evil ≠ evil.
Proof.
  split; [|split; [|split]].
  - vm_compute. reflexivity.
  - vm_compute. reflexivity.
  - vm_compute. reflexivity.
  - vm_compute. discriminate.
Qed.

(** C2, refuted as stated: the first login as [c1@s5] changes the record
    of [c1@s5] in [registered_clients], which gains a websocket. *)
Lemma login_writes_credential_record :
  registered_clients (srv world_1) !! "c1@s5"
  ≠ registered_clients server_0 !! "c1@s5"
  ∧ (registered_clients server_0 !! "c1@s5" ≫= u_websocket) = None
  ∧ (registered_clients (srv world_1) !! "c1@s5" ≫= u_websocket) = Some 1.
Proof.
  split; [|split].
  - vm_compute. discriminate.
  - vm_compute. reflexivity.
  - vm_compute. reflexivity.
Qed.

(** C3, refuted as stated.  Connection 1 logs in as [c1@s5]; connection 2
    logs in as [c1@s5] after it and so holds the session; connection 1
    closes.  Its teardown removes the session that connection 2 registered,
    while connection 2 is still in its message loop. *)
Lemma teardown_removes_later_session :
  let before :=
    (run world_1
       [Connect 2;
        Recv 2 (Ok (login_frame "c1@s5" "pemba-pw" (VStr "K2")))]).1 in
  let after :=
    (step before (Recv 1 (Raise ConnectionClosedError))).1 in
  (lookup_session (srv before) "c1@s5" ≫= u_websocket) = Some 2
  ∧ conns after !! 1 = Some (Closed (Some "c1@s5"))
  ∧ conns after !! 2 = Some (MessageLoop (Some "c1@s5"))
  ∧ lookup_session (srv after) "c1@s5" = None.
Proof. vm_compute. repeat split; reflexivity. Qed.

(** C9, refuted as stated: the reply to an empty jid is not the message
    [JID cannot be empty] but that message after an asterisk and a space. *)
Lemma empty_jid_reply_has_asterisk :
  (handle_client_login 1
     (Ok (login_frame "" "pemba-pw" VNone)) server_0).2.2
  = [Send 1 (VDict [("tag", VStr "error");
                    ("message", VStr "* JID cannot be empty")])]
  ∧ (handle_client_login 1
       (Ok (login_frame "" "pemba-pw" VNone)) server_0).2.2
    ≠ [Send 1 (VDict [("tag", VStr "error");
                      ("message", VStr "JID cannot be empty")])].
Proof.
  split.
  - vm_compute. reflexivity.
  - vm_compute. discriminate.
Qed.

(** C6, refuted as stated: a file envelope of the active sender [c2@s5]
    to the active identity [c1@s5] that has a [filename] but no [info] is
    not forwarded; [process_message] raises [TypeError] and sends
    nothing. *)
Lemma file_without_info_not_forwarded :
  sender_active (srv world_2) (VDict file_without_info) = true
  ∧ dict_get file_without_info "tag" = Some (VStr "file")
  ∧ process_message (VDict file_without_info) (srv world_2)
    = (Raise TypeError, srv world_2, []).
Proof.
  split; [|split].
  - vm_compute. reflexivity.
  - reflexivity.
  - vm_compute. reflexivity.
Qed.

(** ** The theorems at concrete inputs *)

Lemma session_lifetime_witness :
  wf_server (srv world_2)
  ∧ lookup_session (srv world_2) "c2@s5" = Some user_2
  ∧ let ev := Recv 2 (Raise ConnectionClosedError) in
    let wd' := (step world_2 ev).1 in
    lookup_session (srv wd') "c2@s5" = Some user_2
    ∨ (∃ w frame u',
         ev = Recv w frame
         ∧ conns world_2 !! w = Some AwaitingLogin
         ∧ conns wd' !! w = Some (MessageLoop (Some "c2@s5"))
         ∧ lookup_session (srv wd') "c2@s5" = Some u'
         ∧ u_websocket u' = Some w)
    ∨ (∃ w frame,
         ev = Recv w frame
         ∧ (conns world_2 !! w = Some AwaitingLogin
            ∨ conns world_2 !! w = Some (MessageLoop (Some "c2@s5")))
         ∧ conns wd' !! w = Some (Closed (Some "c2@s5"))
         ∧ lookup_session (srv wd') "c2@s5" = None).
Proof.
  split; [exact wf_world_2|]. split; [vm_compute; reflexivity|].
  apply (session_lifetime world_2
           (Recv 2 (Raise ConnectionClosedError)) "c2@s5" user_2).
  - exact wf_world_2.
  - vm_compute. reflexivity.
Defined.

Lemma route_message_spec_witness :
  wf_server (srv world_2)
  ∧ route_message (VStr "public") hello (srv world_2)
    = (Ok (), srv world_2, [Send 1 hello; Send 2 hello])
  ∧ route_message (VStr "c1@s5") hello (srv world_2)
    = (Ok (), srv world_2, [Send 1 hello])
  ∧ ∃ r eff,
      route_message (VStr "c3@s5") hello (srv world_2)
      = (r, srv world_2, eff)
      ∧ sends eff = [].
Proof.
  split; [exact wf_world_2|].
  destruct (route_message_spec hello (srv world_2) wf_world_2)
    as [[Hpublic _] [Hdirect Hnone]].
  split; [|split].
  - rewrite Hpublic. vm_compute. reflexivity.
  - apply (Hdirect "c1@s5"
             (User "pemba" "c1@s5"
                "$2b$12$qWoDtedvx8jurr/2XVex7.raoa7tqIofxPYrx1.oy6qmDpHavkYwa"
                (Some 1) (Some (VStr "K1"))) 1).
    + discriminate.
    + vm_compute. reflexivity.
    + reflexivity.
  - apply Hnone.
    + discriminate.
    + intros t [= <-]. vm_compute. reflexivity.
Defined.

Lemma process_message_dispatch_witness :
  wf_server (srv world_2)
  ∧ dict_get file_envelope "from" = Some (VStr "c2@s5")
  ∧ dict_in "c2@s5" (active_connections (srv world_2)) = true
  ∧ dict_get file_envelope "info" = Some (VStr "")
  ∧ process_message (VDict file_envelope) (srv world_2)
    = (Ok (), srv world_2, [Send 1 (VDict file_envelope)])
  ∧ process_message (VDict file_without_info) (srv world_2)
    = (Raise TypeError, srv world_2, []).
Proof.
  assert (dict_in "c2@s5" (active_connections (srv world_2)) = true)
    as Hactive by (vm_compute; reflexivity).
  assert (lookup_session (srv world_2) "c1@s5" = Some user_1)
    as Hsession by (vm_compute; reflexivity).
  split; [exact wf_world_2|]. split; [reflexivity|].
  split; [exact Hactive|]. split; [reflexivity|]. split.
  - destruct (process_message_dispatch file_envelope "c2@s5" (srv world_2)
                wf_world_2 eq_refl Hactive) as [_ Htext].
    destruct (Htext "" eq_refl) as (_ & _ & Hfile).
    destruct (Hfile eq_refl) as (_ & Hdirect & _).
    refine (Hdirect "c1@s5" user_1 1 eq_refl _ Hsession eq_refl).
    discriminate.
  - refine (proj1 (process_message_dispatch file_without_info "c2@s5"
                     (srv world_2) wf_world_2 eq_refl Hactive) _).
    intros i. discriminate.
Defined.

Lemma process_message_inactive_sender_witness :
  sender_active (srv world_2) (envelope "message" "c3@s5" "c1@s5" "hi")
  = false
  ∧ ∃ r eff,
      process_message
        (envelope "message" "c3@s5" "c1@s5" "hi") (srv world_2)
      = (r, srv world_2, eff)
      ∧ sends eff = [].
Proof.
  assert (sender_active (srv world_2)
            (envelope "message" "c3@s5" "c1@s5" "hi") = false)
    as Hsender by (vm_compute; reflexivity).
  split; [exact Hsender|].
  exact (process_message_inactive_sender _ _ Hsender).
Defined.

Lemma process_message_missing_info_witness :
  dict_get no_info_envelope "from" = Some (VStr "c2@s5")
  ∧ dict_in "c2@s5" (active_connections (srv world_2)) = true
  ∧ dict_get no_info_envelope "info" = None
  ∧ process_message (VDict no_info_envelope) (srv world_2)
    = (Raise TypeError, srv world_2, []).
Proof.
  assert (dict_in "c2@s5" (active_connections (srv world_2)) = true)
    as Hactive by (vm_compute; reflexivity).
  split; [reflexivity|]. split; [exact Hactive|]. split; [reflexivity|].
  exact (proj1 (process_message_missing_info no_info_envelope
                  "c2@s5" (srv world_2) eq_refl Hactive eq_refl)).
Defined.


Lemma login_rejections_witness :
  login_field (login_frame "" "pemba-pw" VNone) "jid" = Ok (VStr "")
  ∧ login_field (login_frame "" "pemba-pw" VNone) "password"
    = Ok (VStr "pemba-pw")
  ∧ handle_client_login 1
      (Ok (login_frame "" "pemba-pw" VNone)) server_0
    = (Some "",
       (Ok false, server_0, [Send 1 (error_message "* JID cannot be empty")]))
  ∧ handle_client_login 1
      (Ok (login_frame sixty_five_letters "pemba-pw" VNone)) server_0
    = (Some sixty_five_letters,
       (Ok false, server_0,
        [Send 1 (error_message "* JID should be less than 64 characters")]))
  ∧ handle_client_login 1
      (Ok (login_frame forty_characters "pemba-pw" VNone)) server_0
    = (Some forty_characters,
       (Ok false, server_0,
        [Send 1 (error_message "Incorrect email and password")])).
Proof.
  split; [reflexivity|]. split; [reflexivity|]. split; [|split].
  - exact (proj1 (login_rejections 1
                    (login_frame "" "pemba-pw" VNone) "" "pemba-pw" server_0
                    eq_refl eq_refl) eq_refl).
  - refine (proj1 (proj2 (login_rejections 1
                     (login_frame sixty_five_letters "pemba-pw" VNone)
                     sixty_five_letters "pemba-pw" server_0
                     eq_refl eq_refl)) _ _).
    + discriminate.
    + vm_compute. lia.
  - refine (proj2 (proj2 (proj2 (proj2 (login_rejections 1
                     (login_frame forty_characters "pemba-pw" VNone)
                     forty_characters "pemba-pw" server_0
                     eq_refl eq_refl)))) _ _ _ _ _).
    + discriminate.
    + vm_compute. lia.
    + discriminate.
    + vm_compute. lia.
    + vm_compute. reflexivity.
Defined.

(** ** The further properties at concrete inputs *)

Lemma broadcast_presence_roster_witness :
  wf_server (srv world_2)
  ∧ broadcast_presence (srv world_2)
    = (Ok (), srv world_2,
       map (λ w, Send w (presence_message (srv world_2)))
           (channels (srv world_2)))
  ∧ length (roster (srv world_2)) = length (active_connections (srv world_2))
  ∧ length (channels (srv world_2))
    = length (active_connections (srv world_2)).
Proof.
  split; [exact wf_world_2|].
  exact (broadcast_presence_roster (srv world_2) wf_world_2).
Defined.

Lemma cleanup_user_idempotent_witness :
  wf_server (srv world_2)
  ∧ ∃ r1 st1 e1,
      cleanup_user (Some "c1@s5") (srv world_2) = (r1, st1, e1)
      ∧ cleanup_user (Some "c1@s5") st1 = (Ok (), st1, []).
Proof.
  split; [exact wf_world_2|].
  exact (cleanup_user_idempotent (Some "c1@s5") (srv world_2) wf_world_2).
Defined.

Lemma cleanup_user_removes_witness :
  wf_server (srv world_2)
  ∧ dict_in "c1@s5" (active_connections (srv world_2)) = true
  ∧ ∃ st',
      cleanup_user (Some "c1@s5") (srv world_2)
      = (Ok (), st',
         map (λ w, Send w (presence_message st')) (channels st'))
      ∧ lookup_session st' "c1@s5" = None
      ∧ (∀ k, k ≠ "c1@s5" →
              lookup_session st' k = lookup_session (srv world_2) k)
      ∧ length (active_connections st')
        = pred (length (active_connections (srv world_2))).
Proof.
  assert (dict_in "c1@s5" (active_connections (srv world_2)) = true)
    as Hactive by (vm_compute; reflexivity).
  split; [exact wf_world_2|]. split; [exact Hactive|].
  exact (cleanup_user_removes "c1@s5" (srv world_2) wf_world_2 Hactive).
Defined.

Lemma handle_client_unreadable_login_witness :
  login_field (VDict []) "jid" ≫= bleach_clean = Raise KeyError
  ∧ handle_client 3 (Ok (VDict [])) [Ok hello] (srv world_2)
    = (Raise KeyError, srv world_2, []).
Proof.
  split; [reflexivity|].
  exact (handle_client_unreadable_login 3 (VDict []) [Ok hello]
           (srv world_2) KeyError eq_refl).
Defined.

Lemma handle_client_rejected_witness :
  rejection (srv world_2) (sanitize "c1@s5") (sanitize "guess")
  = Some "Incorrect email and password"
  ∧ dict_in (sanitize "c1@s5") (active_connections (srv world_2)) = true
  ∧ let jid := sanitize "c1@s5" in
    let st' := removed (srv world_2) jid in
    handle_client 3 (Ok wrong_login) [] (srv world_2)
    = (if dict_in jid (active_connections (srv world_2)) then
         (Ok (), st',
          Send 3 (error_message "Incorrect email and password")
          :: map (λ c, Send c (presence_message st')) (channels st'))
       else
         (Ok (), srv world_2,
          [Send 3 (error_message "Incorrect email and password")]))
    ∧ lookup_session st' jid = None.
Proof.
  assert (rejection (srv world_2) (sanitize "c1@s5") (sanitize "guess")
          = Some "Incorrect email and password")
    as Hrejected by (vm_compute; reflexivity).
  split; [exact Hrejected|]. split; [vm_compute; reflexivity|].
  exact (handle_client_rejected 3 wrong_login "c1@s5" "guess" []
           (srv world_2) "Incorrect email and password"
           wf_world_2 eq_refl eq_refl Hrejected).
Defined.

Lemma add_clients_registry_witness :
  registered_clients (srv world_2) !! "c3@s5" = Some user_3
  ∧ ∃ st',
      add_clients_to_active_connections "c3@s5" 3 VNone (srv world_2)
      = (Ok "c3@s5", st', [])
      ∧ dict_keys (active_connections st')
        = (if dict_in "c3@s5" (active_connections (srv world_2))
           then dict_keys (active_connections (srv world_2))
           else dict_keys (active_connections (srv world_2)) ++ ["c3@s5"])
      ∧ lookup_session st' "c3@s5"
        = Some (User (u_nickname user_3) (u_jid user_3) (u_password user_3)
                     (Some 3) (Some VNone))
      ∧ ∀ k, k ≠ "c3@s5" →
             dict_get (active_connections st') k
             = dict_get (active_connections (srv world_2)) k.
Proof.
  assert (registered_clients (srv world_2) !! "c3@s5" = Some user_3)
    as Hregistered by (vm_compute; reflexivity).
  split; [exact Hregistered|].
  exact (add_clients_registry "c3@s5" 3 VNone (srv world_2) user_3
           Hregistered).
Defined.

Lemma registry_invariant_witness :
  active_connections (srv world_0) = []
  ∧ wf_server
      (srv (run world_0
              [Connect 1; Recv 1 (Ok wrong_login); Connect 2;
               Recv 2 (Ok login_with_nickname)]).1).
Proof.
  split; [reflexivity|].
  exact (registry_invariant world_0 _ eq_refl).
Defined.

Lemma direct_message_delivered_witness :
  lookup_session (srv world_2) "c1@s5" = Some user_1
  ∧ process_message (VDict direct_envelope) (srv world_2)
    = (Ok (), srv world_2,
       [Send 1 (VDict [("tag", VStr "message"); ("from", VStr "c2@s5");
                       ("to", VStr "c1@s5"); ("info", VStr "hi")])]).
Proof.
  assert (lookup_session (srv world_2) "c1@s5" = Some user_1)
    as Hsession by (vm_compute; reflexivity).
  assert (dict_in "c2@s5" (active_connections (srv world_2)) = true)
    as Hactive by (vm_compute; reflexivity).
  assert (sanitize "hi" ≠ "") as Htext by (vm_compute; discriminate).
  split; [exact Hsession|].
  refine (direct_message_delivered direct_envelope "c2@s5" "c1@s5" "hi"
            user_1 1 (srv world_2) eq_refl Hactive eq_refl eq_refl _
            eq_refl Htext Hsession eq_refl).
  discriminate.
Defined.


Lemma handle_client_session_round_trip_witness :
  dict_in (sanitize "c1@s5") (active_connections server_0) = false
  ∧ ∃ r st' eff u,
      handle_client 1 (Ok login_with_nickname) [Ok hello] server_0
      = (r, st', eff)
      ∧ active_connections st' = active_connections server_0
      ∧ registered_clients server_0 !! sanitize "c1@s5" = Some u
      ∧ registered_clients st' !! sanitize "c1@s5"
        = Some (User (u_nickname u) (u_jid u) (u_password u)
                     (Some 1) (Some (VStr "K1")))
      ∧ ∀ k, k ≠ sanitize "c1@s5" →
             registered_clients st' !! k = registered_clients server_0 !! k.
Proof.
  assert (rejection server_0 (sanitize "c1@s5") (sanitize "pemba-pw") = None)
    as Haccepted by (vm_compute; reflexivity).
  split; [reflexivity|].
  exact (handle_client_session_round_trip 1 login_with_nickname "c1@s5"
           "pemba-pw" (VStr "K1") [Ok hello] server_0 wf_server_0
           eq_refl eq_refl eq_refl Haccepted eq_refl).
Defined.

Lemma unhashable_target_ends_session_witness :
  conns world_2 !! 2 = Some (MessageLoop (Some "c2@s5"))
  ∧ step world_2 (Recv 2 (Ok (VDict list_target_envelope)))
    = (World (removed (srv world_2) "c2@s5")
             (<[2 := Closed (Some "c2@s5")]> (conns world_2)),
       map (λ c, Send c (presence_message (removed (srv world_2) "c2@s5")))
           (channels (removed (srv world_2) "c2@s5")))
  ∧ lookup_session (removed (srv world_2) "c2@s5") "c2@s5" = None.
Proof.
  assert (conns world_2 !! 2 = Some (MessageLoop (Some "c2@s5")))
    as Hloop by (vm_compute; reflexivity).
  assert (dict_in "c2@s5" (active_connections (srv world_2)) = true)
    as Hactive by (vm_compute; reflexivity).
  assert (sanitize "hi" ≠ "") as Htext by (vm_compute; discriminate).
  split; [exact Hloop|].
  exact (unhashable_target_ends_session world_2 2 "c2@s5" "c2@s5" "hi"
           list_target_envelope [VStr "c1@s5"] wf_world_2 Hloop Hactive
           eq_refl Hactive eq_refl eq_refl Htext eq_refl).
Defined.

Lemma login_depends_on_cleaned_witness :
  handle_client_login 1
    (Ok (login_frame "c1@s5" "pemba-pw" (VStr "K1"))) server_0
  = handle_client_login 1 (Ok login_with_nickname) server_0.
Proof.
  exact (login_depends_on_cleaned 1
           (login_frame "c1@s5" "pemba-pw" (VStr "K1")) login_with_nickname
           "c1@s5" "pemba-pw" "c1@s5" "pemba-pw" (VStr "K1") server_0
           eq_refl eq_refl eq_refl eq_refl eq_refl eq_refl eq_refl eq_refl).
Defined.
